(** * The HTTP access layer of frontend_flask: [src/utils/api.js]

    The file holds two independent pieces of glue code:
    - the _client facade_: an axios instance ([api]) with a request and a
      response interceptor, and the named operations [uploadVideo],
      [transcribeVideo], [generateStory], [renderVideo], [searchVideo],
      [testCORS] and [healthCheck];
    - the _forwarding handler_: [handler(req, res)], which replays an inbound
      request against a second backend origin through [fetch].

    The embedding is shallow.  JavaScript values are an inductive type, the
    promise-returning functions are computations in a state-and-exception
    monad whose state records the outbound calls (and, for the handler, the
    reply written to [res]), and the platform (the axios transport, [fetch],
    [JSON.stringify], [Number.prototype.toString]) is a parameter of the
    section that uses it.  Console output is not part of the model. *)

From Stdlib Require Import ZArith String Ascii List Bool Lia.
From Stdlib Require Import Floats.SpecFloat.
From stdpp Require Import base option gmap strings.

Local Open Scope string_scope.
Local Open Scope list_scope.
Local Open Scope Z_scope.

(** ** JavaScript values *)

Module Js.

(** A Number is an IEEE 754 value; [spec_float] is the Standard Library's
    inductive description of one (signed zeros, infinities, NaN, finite). *)
Definition number : Type := spec_float.

(** Plain objects are finite maps from property names to values. *)
#[warnings="-register-all"] Inductive JsVal : Type :=
  | JUndefined : JsVal
  | JNull : JsVal
  | JBool (b : bool) : JsVal
  | JNum (n : number) : JsVal
  | JStr (s : string) : JsVal
  | JArr (l : list JsVal) : JsVal
  | JObj (o : gmap string JsVal) : JsVal.

(** The binary64 Number nearest to the integer [z]. *)
Definition number_of_Z (z : Z) : number := binary_normalize 53 1024 z 0 false.

(** The Number [0.5] = 2^52 * 2^-53 in binary64. *)
Definition half : number := S754_finite false 4503599627370496 (-53).

(** ToBoolean: [undefined], [null], [false], [+0], [-0], [NaN] and the
    empty string are falsy, everything else is truthy. *)
Definition truthy (v : JsVal) : bool :=
  match v with
  | JUndefined | JNull => false
  | JBool b => b
  | JNum (S754_zero _) | JNum S754_nan => false
  | JNum _ => true
  | JStr s => negb (String.eqb s "")
  | JArr _ | JObj _ => true
  end.

(** [a || b] on values. *)
Definition or_else (a b : JsVal) : JsVal := if truthy a then a else b.

(** [v?.k] for a property name [k] that no prototype defines (the source
    reads [error] and [transitionDuration] only): the own property of a plain
    object, and [undefined] on everything else, [undefined] and [null]
    included. *)
Definition get_prop (v : JsVal) (k : string) : JsVal :=
  match v with
  | JObj o => default JUndefined (o !! k)
  | _ => JUndefined
  end.

(** [String.prototype.includes]: does [t] occur in [s]? *)
Fixpoint includes (s t : string) : bool :=
  String.prefix t s ||
  match s with
  | EmptyString => false
  | String _ s' => includes s' t
  end.

(** [Array.prototype.join] on an array of strings. *)
Fixpoint join (sep : string) (l : list string) : string :=
  match l with
  | [] => ""
  | [x] => x
  | x :: rest => x +:+ sep +:+ join sep rest
  end.

(** ToString, as [new Error(v)] applies it to its argument; [None] when
    the conversion throws a TypeError.  The values are those of a parsed
    JSON body, so no property is callable: an object with an own [toString]
    property has no primitive value (its [toString] is not a function and
    [Object.prototype.valueOf] returns the object), any other object prints
    through [Object.prototype.toString], and an array prints through
    [Array.prototype.join], which converts its elements in order and prints
    [undefined] and [null] as nothing.  The decimal rendering of a Number is
    the platform's. *)
Section ToString.
Variable Number_toString : number -> string.

Fixpoint to_string (v : JsVal) : option string :=
  match v with
  | JUndefined => Some "undefined"
  | JNull => Some "null"
  | JBool true => Some "true"
  | JBool false => Some "false"
  | JNum n => Some (Number_toString n)
  | JStr s => Some s
  | JArr l =>
      match
        (fix elements (l : list JsVal) : option (list string) :=
           match l with
           | [] => Some []
           | x :: rest =>
               match match x with
                     | JUndefined | JNull => Some ""
                     | _ => to_string x
                     end with
               | Some s =>
                   match elements rest with
                   | Some ss => Some (s :: ss)
                   | None => None
                   end
               | None => None
               end
           end) l
      with
      | Some ss => Some (join "," ss)
      | None => None
      end
  | JObj o =>
      match o !! "toString" with
      | Some _ => None
      | None => Some "[object Object]"
      end
  end.

End ToString.

End Js.

(** ** Promises as computations

    An [async] function is a computation over a state [S] that either
    fulfils with a value or rejects with a thrown error object. *)

Module Eff.

Section Monad.
Context {E S : Type}.

Inductive Result (A : Type) : Type :=
  | Ok (a : A) : Result A
  | Throw (e : E) : Result A.

Definition M (A : Type) : Type := S -> Result A * S.

Definition ret {A} (a : A) : M A := fun s => (Ok A a, s).

Definition throw {A} (e : E) : M A := fun s => (Throw A e, s).

Definition bind {A B} (m : M A) (k : A -> M B) : M B :=
  fun s =>
    match m s with
    | (Ok _ a, s') => k a s'
    | (Throw _ e, s') => (Throw B e, s')
    end.

(** [try { m } catch (error) { h error }]. *)
Definition try_catch {A} (m : M A) (h : E -> M A) : M A :=
  fun s =>
    match m s with
    | (Ok _ a, s') => (Ok A a, s')
    | (Throw _ e, s') => h e s'
    end.

(** [p.then(f, g)]: [g] sees the rejections of [p], not those of [f]. *)
Definition then2 {A B} (m : M A) (f : A -> M B) (g : E -> M B) : M B :=
  fun s =>
    match m s with
    | (Ok _ a, s') => f a s'
    | (Throw _ e, s') => g e s'
    end.

Definition modify (f : S -> S) : M unit := fun s => (Ok unit tt, f s).

End Monad.

Arguments Result : clear implicits.
Arguments M : clear implicits.
Arguments Ok {E A} a.
Arguments Throw {E A} e.

(** stdpp's monad classes give the [x ← m; k] notation. *)
#[global] Instance eff_ret {E S} : MRet (M E S) := fun A a => ret a.
#[global] Instance eff_bind {E S} : MBind (M E S) := fun A B k m => bind m k.

End Eff.

(** ** The client facade *)

Module Client.
Import Js Eff.

(** What axios hands to the caller: [response.status], [response.data]. *)
Record AxiosResponse : Type := mkResponse {
  status : Z;
  data : JsVal
}.

(** A thrown error object, as far as the source reads it: [error.message],
    [error.code] and [error.response] (absent on a plain [Error] and on a
    failure that never got an HTTP response). *)
Record JsError : Type := mkError {
  message : string;
  code : option string;
  response : option AxiosResponse
}.

(** [new Error(msg)]: a message, no [code], no [response]. *)
Definition new_Error (msg : string) : JsError := mkError msg None None.

(** The TypeError of a failed ToString, in V8's wording; as far as the
    source reads an error it is an [Error] with that message. *)
Definition MSG_TO_PRIMITIVE : string :=
  "Cannot convert object to primitive value".

Definition TypeError (msg : string) : JsError := mkError msg None None.

(** The multipart form of an upload is opaque to this layer. *)
Definition FormData : Type := list (string * string).

Inductive Payload : Type :=
  | NoPayload : Payload
  | JsonPayload (v : JsVal) : Payload
  | FormPayload (f : FormData) : Payload.

(** The request configuration that reaches the transport. *)
Record AxiosRequest : Type := mkRequest {
  method : string;
  baseURL : option string;
  url : string;
  payload : Payload;
  headers : gmap string string;
  timeout : Z;
  withCredentials : bool
}.

(** The computations of the facade log the requests they dispatch. *)
Definition Call : Type -> Type := M JsError (list AxiosRequest).

Definition MSG_NETWORK : string :=
  "Cannot connect to server. Please check if the backend is running and CORS is configured.".
Definition MSG_CORS : string :=
  "CORS error. Backend is not accepting requests from this domain.".
Definition MSG_TIMEOUT : string :=
  "Request timed out. Please try with a smaller file or check your connection.".
Definition MSG_SERVER : string :=
  "Server error. The backend service may be experiencing issues.".
Definition MSG_UPLOAD_NETWORK : string :=
  "Network error. Cannot connect to server.".
Definition MSG_UPLOAD_TOO_LARGE : string :=
  "File too large. Please use a smaller video file.".
Definition MSG_TRANSCRIBE_TIMEOUT : string :=
  "Transcription timed out. Please try with a shorter video.".
Definition MSG_TRANSCRIBE_FAILED : string :=
  "Transcription failed. Please try again.".

(** [error.code === c] *)
Definition code_is (error : JsError) (c : string) : bool :=
  match code error with
  | Some c' => String.eqb c' c
  | None => false
  end.

(** [error.response?.status === n] *)
Definition status_is (error : JsError) (n : Z) : bool :=
  match response error with
  | Some r => status r =? n
  | None => false
  end.

(** [error.response?.status >= n]; [undefined >= n] is [false]. *)
Definition status_ge (error : JsError) (n : Z) : bool :=
  match response error with
  | Some r => status r >=? n
  | None => false
  end.

(** [error.response?.status], when there is a response. *)
Definition status_of (error : JsError) : option Z :=
  status <$> response error.

(** [error.response?.data?.error] *)
Definition response_data_error (error : JsError) : JsVal :=
  match response error with
  | Some r => get_prop (data r) "error"
  | None => JUndefined
  end.

Section Facade.

(** [import.meta.env.VITE_BACKEND_URL], when the build defines it. *)
Variable VITE_BACKEND_URL : option string.

(** The transport: how the request sent settles, with the HTTP response or
    with the error axios rejects with. *)
Variable adapter : AxiosRequest -> Result JsError AxiosResponse.

Variable Number_toString : number -> string.

Definition BACKEND_URL : string :=
  match VITE_BACKEND_URL with
  | Some s => if String.eqb s "" then "https://backend-footage-flow.onrender.com" else s
  | None => "https://backend-footage-flow.onrender.com"
  end.

Definition dispatch (config : AxiosRequest) : Call AxiosResponse :=
  fun log => (adapter config, log ++ [config]).

(** [api.interceptors.request.use]: both handlers log and pass on. *)
Definition request_onFulfilled (config : AxiosRequest) : Call AxiosRequest :=
  mret config.

Definition request_onRejected (error : JsError) : Call AxiosRequest :=
  throw error.

(** [api.interceptors.response.use] *)
Definition response_onFulfilled (response : AxiosResponse) : Call AxiosResponse :=
  mret response.

Definition response_onRejected (error : JsError) : Call AxiosResponse :=
  if code_is error "ERR_NETWORK" then
    throw (new_Error MSG_NETWORK)
  else if status_is error 0 then
    throw (new_Error MSG_CORS)
  else if status_is error 408 || code_is error "ECONNABORTED" then
    throw (new_Error MSG_TIMEOUT)
  else if status_ge error 500 then
    throw (new_Error MSG_SERVER)
  else
    throw error.

(** A request through the instance [api]: request interceptor, transport,
    response interceptor. *)
Definition api_request (config : AxiosRequest) : Call AxiosResponse :=
  then2
    (then2 (mret config) request_onFulfilled request_onRejected ≫= dispatch)
    response_onFulfilled response_onRejected.

(** The defaults of [axios.create]. *)
Definition api_config (m u : string) (p : Payload) : AxiosRequest :=
  {| method := m;
     baseURL := Some BACKEND_URL;
     url := u;
     payload := p;
     headers := {[ "Content-Type" := "application/json";
                   "Accept" := "application/json" ]};
     timeout := 30000;
     withCredentials := false |}.

Definition api_post (u : string) (body : JsVal) : Call AxiosResponse :=
  api_request (api_config "post" u (JsonPayload body)).

Definition api_get (u : string) : Call AxiosResponse :=
  api_request (api_config "get" u NoPayload).

(** [axios.post] on the library's default instance: no interceptors. *)
Definition axios_post (config : AxiosRequest) : Call AxiosResponse :=
  dispatch config.

(** [uploadVideo(formData, onProgress)]: the configuration of the call, then
    the call.  The library's default instance adds its own [Accept] header to
    the headers the call sets.  [onProgress] is called by the transport on
    its progress events and does not take part in how the call settles. *)
Definition upload_config (formData : FormData) : AxiosRequest :=
  {| method := "post";
     baseURL := None;
     url := BACKEND_URL +:+ "/upload";
     payload := FormPayload formData;
     headers := {[ "Accept" := "application/json, text/plain, */*";
                   "Content-Type" := "multipart/form-data" ]};
     timeout := 120000;
     withCredentials := false |}.

Definition uploadVideo (formData : FormData) : Call AxiosResponse :=
  try_catch
    (response ← axios_post (upload_config formData);
     mret response)
    (fun error =>
       if code_is error "ERR_NETWORK" then
         throw (new_Error MSG_UPLOAD_NETWORK)
       else if status_is error 413 then
         throw (new_Error MSG_UPLOAD_TOO_LARGE)
       else
         throw error).

Definition transcribeVideo (videoId : JsVal) : Call JsVal :=
  try_catch
    (response ← api_post "/transcribe-direct-video"
                  (JObj {[ "videoId" := videoId ]});
     mret (data response))
    (fun error =>
       if includes (message error) "timeout" then
         throw (new_Error MSG_TRANSCRIBE_TIMEOUT)
       else if truthy (response_data_error error) then
         match to_string Number_toString (response_data_error error) with
         | Some msg => throw (new_Error msg)
         | None => throw (TypeError MSG_TO_PRIMITIVE)
         end
       else
         throw (new_Error MSG_TRANSCRIBE_FAILED)).

(** [mode = 'normal'] applies when the argument is [undefined]. *)
Definition generateStory (videoId prompt mode : JsVal) : Call JsVal :=
  let mode := match mode with JUndefined => JStr "normal" | _ => mode end in
  try_catch
    (response ← api_post "/generate-story"
                  (JObj {[ "videoId" := videoId; "prompt" := prompt;
                           "mode" := mode ]});
     mret (data response))
    (fun error => throw error).

(** [options = {}] applies when the argument is left out; an options
    argument, when given, is an object. *)
Definition renderVideo (videoId scenes : JsVal)
    (options : option (gmap string JsVal)) : Call JsVal :=
  let options := default ∅ options in
  try_catch
    (response ← api_post "/render-story"
                  (JObj {[ "videoId" := videoId; "scenes" := scenes;
                           "transitionDuration" :=
                             or_else (get_prop (JObj options) "transitionDuration")
                                     (JNum half) ]});
     mret (data response))
    (fun error => throw error).

Definition searchVideo (videoId query : JsVal) : Call JsVal :=
  try_catch
    (response ← api_post "/search"
                  (JObj {[ "videoId" := videoId; "query" := query ]});
     mret (data response))
    (fun error => throw error).

Definition testCORS : Call JsVal :=
  try_catch
    (response ← api_get "/cors-test"; mret (data response))
    (fun error => throw error).

Definition healthCheck : Call JsVal :=
  try_catch
    (response ← api_get "/health"; mret (data response))
    (fun error => throw error).

End Facade.

End Client.

(** ** The forwarding handler *)

Module Proxy.
Import Js Eff.

(** [req.query.proxy]: absent, one segment, or the ordered segments of a
    catch-all route. *)
Inductive QueryValue : Type :=
  | QMissing : QueryValue
  | QSingle (s : string) : QueryValue
  | QMulti (l : list string) : QueryValue.

(** The inbound request: [req.query.proxy], [req.method], [req.body] and
    the inbound headers, which the handler never reads. *)
Record Request : Type := mkRequest {
  query_proxy : QueryValue;
  req_method : string;
  req_body : JsVal;
  req_headers : gmap string string
}.

(** The second argument of [fetch]; [body] is [None] while the property is
    not set. *)
Record FetchOptions : Type := mkOptions {
  method : string;
  headers : gmap string string;
  body : option JsVal
}.

(** A thrown error object: the handler reads [error.message]. *)
Record Exn : Type := mkExn { message : string }.

(** The outbound response: [response.status] and how [response.json()]
    settles. *)
Record FetchResponse : Type := mkFetchResponse {
  status : Z;
  json : Result Exn JsVal
}.

(** What the handler does to the world: the [fetch] calls it issued, in
    order, and the reply written through [res.status(..).json(..)]. *)
Record World : Type := mkWorld {
  calls : list (string * FetchOptions);
  reply : option (Z * JsVal)
}.

Definition start : World := mkWorld [] None.

Definition Handler : Type -> Type := M Exn World.

Definition ORIGIN : string :=
  "http://footage-flow-env.eba-92jebm7b.ap-south-1.elasticbeanstalk.com".

(** [`${path}`] for a path that is a string or [undefined]. *)
Definition template (path : option string) : string :=
  match path with
  | Some s => s
  | None => "undefined"
  end.

(** [res.status(code).json(value)] *)
Definition res_status_json (code : Z) (value : JsVal) : Handler unit :=
  modify (fun w => mkWorld (calls w) (Some (code, value))).

Section Handler.

(** The platform: how a [fetch] settles, and [JSON.stringify]. *)
Variable fetch : string -> FetchOptions -> Result Exn FetchResponse.
Variable JSON_stringify : JsVal -> Result Exn JsVal.

Definition do_fetch (u : string) (o : FetchOptions) : Handler FetchResponse :=
  fun w => (fetch u o, mkWorld (calls w ++ [(u, o)]) (reply w)).

Definition stringify (v : JsVal) : Handler JsVal :=
  fun w => (JSON_stringify v, w).

Definition response_json (r : FetchResponse) : Handler JsVal :=
  fun w => (json r, w).

Definition handler (req : Request) : Handler unit :=
  let proxy := query_proxy req in
  let path :=
    match proxy with
    | QMulti l => Some (join "/" l)
    | QSingle s => Some s
    | QMissing => None
    end in
  try_catch
    (let backendUrl := ORIGIN +:+ "/" +:+ template path in
     let fetchOptions :=
       {| method := req_method req;
          headers := {[ "Content-Type" := "application/json" ]};
          body := None |} in
     fetchOptions ←
       (if negb (String.eqb (req_method req) "GET")
           && negb (String.eqb (req_method req) "HEAD")
        then
          b ← stringify (req_body req);
          mret (mkOptions (method fetchOptions) (headers fetchOptions) (Some b))
        else mret fetchOptions);
     response ← do_fetch backendUrl fetchOptions;
     data ← response_json response;
     res_status_json (status response) data)
    (fun error =>
       res_status_json 500
         (JObj {[ "error" := JStr "Backend connection failed";
                  "details" := JStr (message error) ]})).

End Handler.

End Proxy.

(** ** The classifications, in the words of the specification

    Each relation reads [R failure thrown]: the call that failed with
    [failure] rejects with [thrown]. *)

Module Spec.
Import Js Eff Client.

(** [t] occurs in [s]. *)
Definition occurs_in (t s : string) : Prop :=
  exists pre post, s = pre +:+ t +:+ post.

Definition network_failure (e : JsError) : Prop := code e = Some "ERR_NETWORK".
Definition cors_failure (e : JsError) : Prop := status_of e = Some 0.
Definition timeout_failure (e : JsError) : Prop :=
  status_of e = Some 408 \/ code e = Some "ECONNABORTED".
Definition server_failure (e : JsError) : Prop :=
  exists s, status_of e = Some s /\ 500 <= s.

(** The four ordered rules of the response interceptor, and the pass-through. *)
Inductive Classified (e : JsError) : JsError -> Prop :=
  | Rule_network :
      network_failure e ->
      Classified e
        (mkError "Cannot connect to server. Please check if the backend is running and CORS is configured." None None)
  | Rule_cors :
      ~ network_failure e -> cors_failure e ->
      Classified e
        (mkError "CORS error. Backend is not accepting requests from this domain." None None)
  | Rule_timeout :
      ~ network_failure e -> ~ cors_failure e -> timeout_failure e ->
      Classified e
        (mkError "Request timed out. Please try with a smaller file or check your connection." None None)
  | Rule_server :
      ~ network_failure e -> ~ cors_failure e -> ~ timeout_failure e ->
      server_failure e ->
      Classified e
        (mkError "Server error. The backend service may be experiencing issues." None None)
  | Rule_none :
      ~ network_failure e -> ~ cors_failure e -> ~ timeout_failure e ->
      ~ server_failure e ->
      Classified e e.

(** The remapping of [uploadVideo]. *)
Inductive UploadRemap (e : JsError) : JsError -> Prop :=
  | Upload_network :
      network_failure e ->
      UploadRemap e (mkError "Network error. Cannot connect to server." None None)
  | Upload_too_large :
      ~ network_failure e -> status_of e = Some 413 ->
      UploadRemap e
        (mkError "File too large. Please use a smaller video file." None None)
  | Upload_other :
      ~ network_failure e -> status_of e <> Some 413 ->
      UploadRemap e e.

(** The remapping of [transcribeVideo], on the error its [catch] receives:
    a backend error field is surfaced when it is truthy, as the string it
    converts to; when it has none, the conversion's TypeError is what the
    call rejects with. *)
Inductive TranscribeRemap (Number_toString : number -> string) (e : JsError) :
    JsError -> Prop :=
  | Transcribe_timeout :
      occurs_in "timeout" (message e) ->
      TranscribeRemap Number_toString e
        (mkError "Transcription timed out. Please try with a shorter video." None None)
  | Transcribe_backend (msg : string) :
      ~ occurs_in "timeout" (message e) ->
      truthy (response_data_error e) = true ->
      to_string Number_toString (response_data_error e) = Some msg ->
      TranscribeRemap Number_toString e (mkError msg None None)
  | Transcribe_unprintable :
      ~ occurs_in "timeout" (message e) ->
      truthy (response_data_error e) = true ->
      to_string Number_toString (response_data_error e) = None ->
      TranscribeRemap Number_toString e
        (mkError "Cannot convert object to primitive value" None None)
  | Transcribe_generic :
      ~ occurs_in "timeout" (message e) ->
      truthy (response_data_error e) = false ->
      TranscribeRemap Number_toString e
        (mkError "Transcription failed. Please try again." None None).

(** [options.transitionDuration] as the caller supplied it, if at all. *)
Definition supplied_transitionDuration
    (options : option (gmap string JsVal)) : option JsVal :=
  o ← options; o !! "transitionDuration".

End Spec.

(** ** The forwarding contract, in the words of the specification *)

Module ProxySpec.
Import Js Eff Proxy.

(** GET and HEAD carry no body. *)
Definition bodyless (m : string) : Prop := m = "GET" \/ m = "HEAD".

(** The fixed outbound headers. *)
Definition json_headers : gmap string string :=
  {[ "Content-Type" := "application/json" ]}.

(** The fixed error envelope. *)
Definition envelope (e : Exn) : JsVal :=
  JObj {[ "error" := JStr "Backend connection failed";
          "details" := JStr (message e) ]}.

(** The target address: the origin, a slash, and the captured path. *)
Definition target (req : Request) : string :=
  ORIGIN +:+ "/" +:+
  template match query_proxy req with
           | QMulti l => Some (join "/" l)
           | QSingle s => Some s
           | QMissing => None
           end.

(** What reaches the caller once the outbound call [(u, o)] is issued: the
    backend's status and JSON body, or the envelope with status 500. *)
Definition relay (fetch : string -> FetchOptions -> Result Exn FetchResponse)
    (u : string) (o : FetchOptions) (w : World) : Result Exn unit * World :=
  let sent := calls w ++ [(u, o)] in
  match fetch u o with
  | Ok r =>
      match json r with
      | Ok d => (Ok tt, mkWorld sent (Some (status r, d)))
      | Throw e => (Ok tt, mkWorld sent (Some (500, envelope e)))
      end
  | Throw e => (Ok tt, mkWorld sent (Some (500, envelope e)))
  end.

End ProxySpec.

(** ** Concrete failures and transports, used to exercise the theorems *)

Module Examples.
Import Js Eff Client.

(** A transport on which every request is rejected with [e]. *)
Definition rejecting (e : JsError) : AxiosRequest -> Result JsError AxiosResponse :=
  fun _ => Throw e.

(** A transport on which every request is answered with [r]. *)
Definition answering (r : AxiosResponse) : AxiosRequest -> Result JsError AxiosResponse :=
  fun _ => Ok r.

(** Numbers print as nothing here: no example prints one. *)
Definition no_numbers : number -> string := fun _ => "".

Definition body_error (s : string) : JsVal := JObj {[ "error" := JStr s ]}.

(** The errors axios builds: no response on a network error or a timeout, a
    response on a status outside 2xx. *)
Definition network_error : JsError :=
  mkError "Network Error" (Some "ERR_NETWORK") None.
Definition aborted : JsError :=
  mkError "timeout of 30000ms exceeded" (Some "ECONNABORTED") None.
Definition bad_status (s : Z) (c : string) (d : JsVal) : JsError :=
  mkError "Request failed" (Some c) (Some (mkResponse s d)).

Definition status_zero : JsError := bad_status 0 "ERR_BAD_REQUEST" JNull.
Definition bad_gateway : JsError :=
  bad_status 502 "ERR_BAD_RESPONSE" (body_error "upstream down").
Definition bad_request : JsError :=
  bad_status 400 "ERR_BAD_REQUEST" (body_error "bad video").
Definition too_large : JsError :=
  bad_status 413 "ERR_BAD_REQUEST" JNull.
Definition empty_error_field : JsError :=
  bad_status 400 "ERR_BAD_REQUEST" (body_error "").

(** An error tagged ERR_NETWORK that nevertheless carries a 503 response,
    and one whose error field is an object with a [toString] key. *)
Definition network_error_503 : JsError :=
  mkError "Network Error" (Some "ERR_NETWORK") (Some (mkResponse 503 JNull)).
Definition unprintable_error_field : JsError :=
  bad_status 422 "ERR_BAD_REQUEST"
    (JObj {[ "error" := JObj {[ "toString" := JNum (number_of_Z 1) ]} ]}).

(** An inbound GET without a [proxy] parameter, and a backend that answers
    every call with 200 and [null]. *)
Definition get_root : Proxy.Request :=
  Proxy.mkRequest Proxy.QMissing "GET" JUndefined ∅.

Definition get_a_b : Proxy.Request :=
  Proxy.mkRequest (Proxy.QMulti ["a"; "b"]) "GET" JUndefined
    {[ "authorization" := "Bearer t" ]}.

Definition post_a : Proxy.Request :=
  Proxy.mkRequest (Proxy.QSingle "a") "POST" (JObj {[ "k" := JStr "v" ]}) ∅.

Definition backend_ok : string -> Proxy.FetchOptions ->
    Result Proxy.Exn Proxy.FetchResponse :=
  fun _ _ => Ok (Proxy.mkFetchResponse 200 (Ok JNull)).

Definition backend_down : string -> Proxy.FetchOptions ->
    Result Proxy.Exn Proxy.FetchResponse :=
  fun _ _ => Throw (Proxy.mkExn "fetch failed").

(** A stand-in for [JSON.stringify] that serialises nothing. *)
Definition stringify_fixed : JsVal -> Result Proxy.Exn JsVal :=
  fun _ => Ok (JStr "{}").

End Examples.

(** ** The requests of the operations

    What each operation of the facade hands to the transport: the endpoint,
    the method and the body, on top of the defaults of [api]. *)

Module Endpoints.
Import Js Eff Client.

Section Requests.
Variable VITE_BACKEND_URL : option string.

Definition transcribe_request (videoId : JsVal) : AxiosRequest :=
  api_config VITE_BACKEND_URL "post" "/transcribe-direct-video"
    (JsonPayload (JObj {[ "videoId" := videoId ]})).

Definition story_request (videoId prompt mode : JsVal) : AxiosRequest :=
  api_config VITE_BACKEND_URL "post" "/generate-story"
    (JsonPayload (JObj {[ "videoId" := videoId; "prompt" := prompt;
                          "mode" := mode ]})).

Definition render_request (videoId scenes duration : JsVal) : AxiosRequest :=
  api_config VITE_BACKEND_URL "post" "/render-story"
    (JsonPayload (JObj {[ "videoId" := videoId; "scenes" := scenes;
                          "transitionDuration" := duration ]})).

Definition search_request (videoId query : JsVal) : AxiosRequest :=
  api_config VITE_BACKEND_URL "post" "/search"
    (JsonPayload (JObj {[ "videoId" := videoId; "query" := query ]})).

Definition cors_request : AxiosRequest :=
  api_config VITE_BACKEND_URL "get" "/cors-test" NoPayload.

Definition health_request : AxiosRequest :=
  api_config VITE_BACKEND_URL "get" "/health" NoPayload.

End Requests.

(** The mode [generateStory] sends: the parameter default replaces
    [undefined] only. *)
Definition mode_sent (mode : JsVal) : JsVal :=
  match mode with
  | JUndefined => JStr "normal"
  | _ => mode
  end.

(** The duration [renderVideo] sends. *)
Definition duration_sent (options : option (gmap string JsVal)) : JsVal :=
  match Spec.supplied_transitionDuration options with
  | Some v => if truthy v then v else JNum half
  | None => JNum half
  end.

(** A plain [Error]: neither [code] nor [response]. *)
Definition plain (e : JsError) : Prop := code e = None /\ response e = None.

(** An error whose response body is [{error: {reason: "codec"}}], and a
    gateway timeout. *)
Definition object_error_field : JsError :=
  Examples.bad_status 422 "ERR_BAD_REQUEST"
    (JObj {[ "error" := JObj {[ "reason" := JStr "codec" ]} ]}).

Definition not_found : Proxy.FetchResponse :=
  Proxy.mkFetchResponse 404 (Ok (JObj {[ "error" := JStr "no such video" ]})).

Definition backend_not_found : string -> Proxy.FetchOptions ->
    Result Proxy.Exn Proxy.FetchResponse :=
  fun _ _ => Ok not_found.

End Endpoints.

(** * Facts *)

(** ** Strings and values *)

Module JsFacts.
Import Js.

Lemma prefix_app (t s : string) :
  String.prefix t s = true <-> exists post, s = t +:+ post.
Proof.
  revert s; induction t as [|c t IH]; intros s.
  - split; [intros _; now exists s | intros _; now destruct s].
  - destruct s as [|d s]; simpl.
    + split; [discriminate | intros [post H]; discriminate].
    + destruct (Ascii.ascii_dec c d) as [->|Hne].
      * rewrite IH; split; intros [post H]; exists post.
        -- now rewrite H.
        -- now injection H.
      * split; [discriminate | intros [post H]; injection H; congruence].
Qed.

(** [includes] decides occurrence as a substring. *)
Lemma includes_spec (s t : string) :
  includes s t = true <-> exists pre post, s = pre +:+ t +:+ post.
Proof.
  induction s as [|c s IH]; cbn [includes].
  - rewrite orb_false_r, prefix_app; split.
    + intros [post H]; now exists "", post.
    + intros [pre [post H]]; destruct pre; [now exists post | discriminate].
  - rewrite orb_true_iff, IH, prefix_app; split.
    + intros [[post H] | [pre [post H]]].
      * now exists "", post.
      * exists (String c pre), post; simpl; now rewrite H.
    + intros [pre [post H]]; destruct pre as [|d pre]; simpl in H.
      * left; now exists post.
      * right; exists pre, post; now injection H.
Qed.

Lemma truthy_JStr (s : string) : truthy (JStr s) = true <-> s <> "".
Proof.
  simpl; rewrite negb_true_iff; split.
  - intros H ->; discriminate.
  - intros H; destruct s; [congruence | reflexivity].
Qed.



(** The falsy values. *)
Lemma falsy_inv (v : JsVal) :
  truthy v = false ->
  v = JUndefined \/ v = JNull \/ v = JBool false \/
  (exists sg, v = JNum (S754_zero sg)) \/ v = JNum S754_nan \/ v = JStr "".
Proof.
  destruct v as [| |[]|[sg| | |]|s| |]; simpl; try discriminate; eauto 8.
  destruct s; simpl; [eauto 8 | discriminate].
Qed.

Lemma half_is_one_over_two :
  SFdiv 53 1024 (number_of_Z 1) (number_of_Z 2) = half.
Proof. reflexivity. Qed.

Lemma zero_is_falsy : truthy (JNum (number_of_Z 0)) = false.
Proof. reflexivity. Qed.

(** [join] is the Standard Library's [String.concat]. *)
Lemma join_concat (sep : string) (l : list string) :
  join sep l = String.concat sep l.
Proof.
  induction l as [|x l IH]; [reflexivity|].
  destruct l as [|y l]; [reflexivity|].
  cbn [join String.concat]. cbn [join String.concat] in IH.
  now rewrite IH.
Qed.

Lemma join_two (sep a b : string) : join sep [a; b] = a +:+ sep +:+ b.
Proof. reflexivity. Qed.

End JsFacts.

(** ** The client facade *)

Module ClientFacts.
Import Js Eff Client Spec.

Lemma code_is_true (e : JsError) (c : string) :
  code_is e c = true <-> code e = Some c.
Proof.
  unfold code_is; destruct (code e) as [c'|].
  - rewrite String.eqb_eq; split; congruence.
  - split; discriminate.
Qed.

Lemma code_is_false (e : JsError) (c : string) :
  code_is e c = false <-> code e <> Some c.
Proof.
  rewrite <- code_is_true; destruct (code_is e c); split; congruence.
Qed.

Lemma status_is_true (e : JsError) (n : Z) :
  status_is e n = true <-> status_of e = Some n.
Proof.
  unfold status_is, status_of; destruct (response e) as [r|]; simpl.
  - rewrite Z.eqb_eq; split; congruence.
  - split; discriminate.
Qed.

Lemma status_is_false (e : JsError) (n : Z) :
  status_is e n = false <-> status_of e <> Some n.
Proof.
  rewrite <- status_is_true; destruct (status_is e n); split; congruence.
Qed.

Lemma status_ge_true (e : JsError) (n : Z) :
  status_ge e n = true <-> exists s, status_of e = Some s /\ n <= s.
Proof.
  unfold status_ge, status_of; destruct (response e) as [r|]; simpl.
  - rewrite Z.geb_le; split.
    + intros H; now exists (status r).
    + intros [s [[= <-] H]]; exact H.
  - split; [discriminate | intros [s [H _]]; discriminate].
Qed.

Lemma status_ge_false (e : JsError) (n : Z) :
  status_ge e n = false <-> ~ exists s, status_of e = Some s /\ n <= s.
Proof.
  rewrite <- status_ge_true; destruct (status_ge e n); split; congruence.
Qed.

(** The rules exclude one another, so a failure is classified one way. *)
Lemma Classified_functional (e a b : JsError) :
  Classified e a -> Classified e b -> a = b.
Proof.
  intros Ha Hb; destruct Ha; destruct Hb; try reflexivity; contradiction.
Qed.

Lemma UploadRemap_functional (e a b : JsError) :
  UploadRemap e a -> UploadRemap e b -> a = b.
Proof.
  intros Ha Hb; destruct Ha; destruct Hb; try reflexivity; contradiction.
Qed.

(** The rejection handler always rejects, with the classified error. *)
Lemma response_onRejected_classified (e : JsError) (log : list AxiosRequest) :
  exists thrown,
    response_onRejected e log = (Throw thrown, log) /\ Classified e thrown.
Proof.
  unfold response_onRejected.
  destruct (code_is e "ERR_NETWORK") eqn:Hn.
  { eexists; split; [reflexivity|].
    apply Rule_network. now apply code_is_true. }
  apply code_is_false in Hn.
  destruct (status_is e 0) eqn:Hc.
  { eexists; split; [reflexivity|].
    apply Rule_cors; [exact Hn | now apply status_is_true]. }
  apply status_is_false in Hc.
  destruct (status_is e 408 || code_is e "ECONNABORTED") eqn:Ht.
  { eexists; split; [reflexivity|].
    apply Rule_timeout; try assumption.
    apply orb_true_iff in Ht as [Ht|Ht]; [left | right].
    - now apply status_is_true.
    - now apply code_is_true. }
  apply orb_false_iff in Ht as [Ht1 Ht2].
  apply status_is_false in Ht1. apply code_is_false in Ht2.
  assert (Hnt : ~ timeout_failure e) by (intros [H|H]; contradiction).
  destruct (status_ge e 500) eqn:Hs.
  { eexists; split; [reflexivity|].
    apply Rule_server; try assumption. now apply status_ge_true. }
  apply status_ge_false in Hs.
  eexists; split; [reflexivity|].
  now apply Rule_none.
Qed.

Section Facade.
Variable VITE_BACKEND_URL : option string.
Variable adapter : AxiosRequest -> Result JsError AxiosResponse.
Variable Number_toString : number -> string.

(** A request through [api] is the transport's answer, filtered by the
    response interceptor. *)
Lemma api_request_run (config : AxiosRequest) (log : list AxiosRequest) :
  api_request adapter config log =
  match adapter config with
  | Ok r => (Ok r, log ++ [config])
  | Throw e => response_onRejected e (log ++ [config])
  end.
Proof.
  unfold api_request, then2, mbind, eff_bind, bind, dispatch, mret, eff_ret,
    ret, request_onFulfilled, response_onFulfilled; simpl.
  now destruct (adapter config).
Qed.

Lemma api_request_rejected
    (config : AxiosRequest) (e : JsError) (log : list AxiosRequest) :
  adapter config = Throw e ->
  exists thrown,
    api_request adapter config log = (Throw thrown, log ++ [config]) /\
    Classified e thrown.
Proof.
  intros Hfail. rewrite api_request_run, Hfail.
  apply response_onRejected_classified.
Qed.

(** [uploadVideo] is the transport's answer, filtered by its own handler. *)
Lemma uploadVideo_run (formData : FormData) (log : list AxiosRequest) :
  uploadVideo VITE_BACKEND_URL adapter formData log =
  let config := upload_config VITE_BACKEND_URL formData in
  match adapter config with
  | Ok r => (Ok r, log ++ [config])
  | Throw error =>
      (Throw
         (if code_is error "ERR_NETWORK" then new_Error MSG_UPLOAD_NETWORK
          else if status_is error 413 then new_Error MSG_UPLOAD_TOO_LARGE
          else error),
       log ++ [config])
  end.
Proof.
  unfold uploadVideo, try_catch, axios_post, mbind, eff_bind, bind, dispatch.
  destruct (adapter _) as [r|error]; [reflexivity|].
  destruct (code_is _ _); [reflexivity|].
  destruct (status_is _ _); reflexivity.
Qed.

(** C1. Every failure of a call made through the shared instance [api] is
    classified by the four ordered rules of the response interceptor
    (ERR_NETWORK, then status 0, then status 408 or ECONNABORTED, then
    status >= 500), each rejecting with its fixed message; the first rule
    that matches wins, and a failure that matches none is rejected
    unchanged, with its status and body. *)
Theorem interceptor_classification
    (config : AxiosRequest) (e : JsError) (log : list AxiosRequest) :
  adapter config = Throw e ->
  exists thrown,
    api_request adapter config log = (Throw thrown, log ++ [config]) /\
    Classified e thrown.
Proof.
  intros Hfail. rewrite api_request_run, Hfail.
  apply response_onRejected_classified.
Qed.

(** C7. A failed upload is rejected with "Network error. Cannot connect to
    server." on ERR_NETWORK, with "File too large. Please use a smaller video
    file." on an HTTP 413 response, and with the failure itself, status and
    body untouched, in every other case. *)
Theorem uploadVideo_failure
    (formData : FormData) (e : JsError) (log : list AxiosRequest) :
  adapter (upload_config VITE_BACKEND_URL formData) = Throw e ->
  exists thrown,
    uploadVideo VITE_BACKEND_URL adapter formData log =
      (Throw thrown, log ++ [upload_config VITE_BACKEND_URL formData]) /\
    UploadRemap e thrown.
Proof.
  intros Hfail. rewrite uploadVideo_run. cbv zeta. rewrite Hfail.
  destruct (code_is e "ERR_NETWORK") eqn:Hn.
  { eexists; split; [reflexivity|].
    apply Upload_network. now apply code_is_true. }
  apply code_is_false in Hn.
  destruct (status_is e 413) eqn:Hs.
  - eexists; split; [reflexivity|].
    apply Upload_too_large; [exact Hn | now apply status_is_true].
  - eexists; split; [reflexivity|].
    apply Upload_other; [exact Hn | now apply status_is_false].
Qed.

(** C10. [uploadVideo] goes through [axios.post], not through [api]: a
    failed upload carrying an HTTP response with status 0, 408 or >= 500,
    and not tagged ERR_NETWORK, is rejected with the failure itself, where
    the same failure on a call through [api] is replaced by the CORS,
    timeout or server-error message; tagged ERR_NETWORK, it is replaced by
    the upload's own "Network error. Cannot connect to server.", whatever
    its status. *)
Theorem uploadVideo_bypasses_interceptor
    (formData : FormData) (e : JsError) (r : AxiosResponse)
    (log : list AxiosRequest) :
  adapter (upload_config VITE_BACKEND_URL formData) = Throw e ->
  response e = Some r ->
  status r = 0 \/ status r = 408 \/ 500 <= status r ->
  (~ network_failure e ->
   uploadVideo VITE_BACKEND_URL adapter formData log =
     (Throw e, log ++ [upload_config VITE_BACKEND_URL formData]) /\
   exists m,
     api_request adapter (upload_config VITE_BACKEND_URL formData) log =
       (Throw (mkError m None None),
        log ++ [upload_config VITE_BACKEND_URL formData]) /\
     (m = "CORS error. Backend is not accepting requests from this domain." \/
      m = "Request timed out. Please try with a smaller file or check your connection." \/
      m = "Server error. The backend service may be experiencing issues.")) /\
  (network_failure e ->
   uploadVideo VITE_BACKEND_URL adapter formData log =
     (Throw (mkError "Network error. Cannot connect to server." None None),
      log ++ [upload_config VITE_BACKEND_URL formData])).
Proof.
  intros Hfail Hr Hst.
  assert (Hso : status_of e = Some (status r))
    by (unfold status_of; now rewrite Hr).
  split; [intros Hn; split|intros Hn].
  - rewrite uploadVideo_run. cbv zeta. rewrite Hfail.
    apply code_is_false in Hn. rewrite Hn.
    assert (H413 : status_is e 413 = false).
    { apply status_is_false. rewrite Hso. intros [= H]. lia. }
    now rewrite H413.
  - destruct (api_request_rejected _ e log Hfail) as [thrown [Hrun Hcl]].
    rewrite Hrun.
    destruct Hcl as [Hn'|_ _|_ _ _|_ _ _ _|_ Hc Ht Hs].
    + contradiction.
    + eexists; split; [reflexivity|]; auto.
    + eexists; split; [reflexivity|]; auto.
    + eexists; split; [reflexivity|]; auto.
    + exfalso. destruct Hst as [H|[H|H]].
      * apply Hc. unfold cors_failure. now rewrite Hso, H.
      * apply Ht. left. now rewrite Hso, H.
      * apply Hs. now exists (status r).
  - rewrite uploadVideo_run. cbv zeta. rewrite Hfail.
    apply code_is_true in Hn. now rewrite Hn.
Qed.


Lemma transcribeVideo_run (videoId : JsVal) (log : list AxiosRequest) :
  transcribeVideo VITE_BACKEND_URL adapter Number_toString videoId log =
  match api_post VITE_BACKEND_URL adapter "/transcribe-direct-video"
          (JObj {[ "videoId" := videoId ]}) log with
  | (Ok r, log') => (Ok (data r), log')
  | (Throw error, log') =>
      (Throw
         (if includes (message error) "timeout" then
            new_Error MSG_TRANSCRIBE_TIMEOUT
          else if truthy (response_data_error error) then
            match to_string Number_toString (response_data_error error) with
            | Some msg => new_Error msg
            | None => TypeError MSG_TO_PRIMITIVE
            end
          else new_Error MSG_TRANSCRIBE_FAILED),
       log')
  end.
Proof.
  unfold transcribeVideo, try_catch, mbind, eff_bind, bind.
  destruct (api_post _ _ _ _ log) as [[r|error] log']; [reflexivity|].
  destruct (includes _ _); [reflexivity|].
  destruct (truthy _); [|reflexivity].
  destruct (to_string _ _); reflexivity.
Qed.

(** C3. When [transcribeVideo] fails, with [e] the error its [catch]
    receives: a message containing "timeout" gives "Transcription timed out.
    Please try with a shorter video."; otherwise a truthy error field of the
    response body is surfaced as the string it converts to (a non-empty
    string verbatim), and the TypeError of the conversion is what the call
    rejects with when the field has no string (an object with a [toString]
    key of its own); otherwise, also when the field is present but falsy,
    the message is "Transcription failed. Please try again.". *)
Theorem transcribeVideo_failure
    (videoId : JsVal) (e : JsError) (log log' : list AxiosRequest) :
  api_post VITE_BACKEND_URL adapter "/transcribe-direct-video"
    (JObj {[ "videoId" := videoId ]}) log = (Throw e, log') ->
  exists thrown,
    transcribeVideo VITE_BACKEND_URL adapter Number_toString videoId log =
      (Throw thrown, log') /\
    TranscribeRemap Number_toString e thrown /\
    (forall s, ~ occurs_in "timeout" (message e) ->
               response_data_error e = JStr s -> s <> "" ->
               thrown = mkError s None None) /\
    (forall o, ~ occurs_in "timeout" (message e) ->
               response_data_error e = JObj o ->
               is_Some (o !! "toString") ->
               thrown = mkError "Cannot convert object to primitive value"
                          None None).
Proof.
  intros Hpost. rewrite transcribeVideo_run, Hpost.
  destruct (includes (message e) "timeout") eqn:Hinc.
  - eexists; split; [reflexivity|]. split; [|split].
    + apply Transcribe_timeout. now apply JsFacts.includes_spec.
    + intros s Hno. exfalso. apply Hno. now apply JsFacts.includes_spec.
    + intros o Hno. exfalso. apply Hno. now apply JsFacts.includes_spec.
  - assert (Hno : ~ occurs_in "timeout" (message e)).
    { intros H. apply JsFacts.includes_spec in H. congruence. }
    destruct (truthy (response_data_error e)) eqn:Htr.
    + destruct (to_string Number_toString (response_data_error e))
        as [msg|] eqn:Hts.
      * eexists; split; [reflexivity|]. split; [|split].
        -- now apply Transcribe_backend.
        -- intros s _ Hs _. rewrite Hs in Hts. simpl in Hts.
           injection Hts as <-. reflexivity.
        -- intros o _ Ho [x Hx]. rewrite Ho in Hts. simpl in Hts.
           rewrite Hx in Hts. discriminate.
      * eexists; split; [reflexivity|]. split; [|split].
        -- now apply Transcribe_unprintable.
        -- intros s _ Hs _. rewrite Hs in Hts. discriminate.
        -- reflexivity.
    + eexists; split; [reflexivity|]. split; [|split].
      * now apply Transcribe_generic.
      * intros s _ Hs Hne. rewrite Hs in Htr.
        apply JsFacts.truthy_JStr in Hne. congruence.
      * intros o _ Ho _. rewrite Ho in Htr. discriminate.
Qed.


(** A call through [api] dispatches its request, and only that. *)
Lemma api_request_log (config : AxiosRequest) (log : list AxiosRequest) :
  (api_request adapter config log).2 = log ++ [config].
Proof.
  rewrite api_request_run. destruct (adapter config) as [r|e]; [reflexivity|].
  destruct (response_onRejected_classified e (log ++ [config]))
    as [thrown [-> _]].
  reflexivity.
Qed.




End Facade.

(** *** The theorems at concrete failures *)

Import Examples.

Lemma interceptor_classification_witness :
  api_request (rejecting network_error)
    (api_config None "get" "/health" NoPayload) [] =
  (Throw
     (mkError
        "Cannot connect to server. Please check if the backend is running and CORS is configured."
        None None),
   [api_config None "get" "/health" NoPayload]).
Proof.
  destruct (interceptor_classification (rejecting network_error)
              (api_config None "get" "/health" NoPayload) network_error []
              eq_refl) as [thrown [Hrun Hcl]].
  rewrite Hrun.
  destruct Hcl as [_|Hn _|Hn _ _|Hn _ _ _|Hn _ _ _];
    [reflexivity | exfalso; apply Hn; reflexivity ..].
Defined.

Lemma uploadVideo_failure_witness :
  uploadVideo None (rejecting too_large) [("video", "clip.mp4")] [] =
  (Throw (mkError "File too large. Please use a smaller video file." None None),
   [upload_config None [("video", "clip.mp4")]]).
Proof.
  destruct (uploadVideo_failure None (rejecting too_large)
              [("video", "clip.mp4")] too_large [] eq_refl)
    as [thrown [Hrun Hre]].
  rewrite Hrun.
  destruct Hre as [Hn|_ _|_ H413].
  - discriminate Hn.
  - reflexivity.
  - exfalso; apply H413; reflexivity.
Defined.

Lemma uploadVideo_bypasses_interceptor_witness :
  uploadVideo None (rejecting bad_gateway) [("video", "clip.mp4")] [] =
    (Throw bad_gateway, [] ++ [upload_config None [("video", "clip.mp4")]]) /\
  uploadVideo None (rejecting network_error_503) [("video", "clip.mp4")] [] =
    (Throw (mkError "Network error. Cannot connect to server." None None),
     [] ++ [upload_config None [("video", "clip.mp4")]]).
Proof.
  split.
  - apply (uploadVideo_bypasses_interceptor None (rejecting bad_gateway)
             [("video", "clip.mp4")] bad_gateway
             (mkResponse 502 (body_error "upstream down")) []).
    + reflexivity.
    + reflexivity.
    + right; right; simpl; lia.
    + unfold network_failure; simpl; discriminate.
  - apply (uploadVideo_bypasses_interceptor None (rejecting network_error_503)
             [("video", "clip.mp4")] network_error_503
             (mkResponse 503 JNull) []).
    + reflexivity.
    + reflexivity.
    + right; right; simpl; lia.
    + reflexivity.
Defined.

Lemma transcribeVideo_failure_witness :
  transcribeVideo None (rejecting bad_request) no_numbers (JStr "abc") [] =
    (Throw (mkError "bad video" None None),
     [api_config None "post" "/transcribe-direct-video"
        (JsonPayload (JObj {[ "videoId" := JStr "abc" ]}))]) /\
  transcribeVideo None (rejecting unprintable_error_field) no_numbers
    (JStr "abc") [] =
    (Throw (mkError "Cannot convert object to primitive value" None None),
     [api_config None "post" "/transcribe-direct-video"
        (JsonPayload (JObj {[ "videoId" := JStr "abc" ]}))]).
Proof.
  split.
  - destruct (transcribeVideo_failure None (rejecting bad_request) no_numbers
                (JStr "abc") bad_request []
                [api_config None "post" "/transcribe-direct-video"
                   (JsonPayload (JObj {[ "videoId" := JStr "abc" ]}))] eq_refl)
      as (thrown & Hrun & _ & Hstr & _).
    rewrite Hrun. rewrite (Hstr "bad video"); [reflexivity | | reflexivity |].
    + intros H. apply JsFacts.includes_spec in H. vm_compute in H.
      discriminate.
    + discriminate.
  - destruct (transcribeVideo_failure None (rejecting unprintable_error_field)
                no_numbers (JStr "abc") unprintable_error_field []
                [api_config None "post" "/transcribe-direct-video"
                   (JsonPayload (JObj {[ "videoId" := JStr "abc" ]}))] eq_refl)
      as (thrown & Hrun & _ & _ & Hobj).
    rewrite Hrun.
    rewrite (Hobj {[ "toString" := JNum (number_of_Z 1) ]});
      [reflexivity | | reflexivity |].
    + intros H. apply JsFacts.includes_spec in H. vm_compute in H.
      discriminate.
    + eexists. reflexivity.
Defined.



(** *** Where the specification says more than the code does *)


(** C3, as written, fails on a response body whose error field is the empty
    string: the field is there, the message has no "timeout", and the call
    rejects with the generic message, not with the field's value. *)
Lemma transcribeVideo_empty_error_field :
  response empty_error_field = Some (mkResponse 400 (body_error "")) /\
  response_data_error empty_error_field = JStr "" /\
  includes (message empty_error_field) "timeout" = false /\
  transcribeVideo None (rejecting empty_error_field) no_numbers (JStr "abc") [] =
    (Throw (mkError "Transcription failed. Please try again." None None),
     [api_config None "post" "/transcribe-direct-video"
        (JsonPayload (JObj {[ "videoId" := JStr "abc" ]}))]) /\
  mkError "Transcription failed. Please try again." None None <>
    mkError "" None None.
Proof.
  split; [reflexivity|]. split; [reflexivity|]. split; [reflexivity|].
  split; [reflexivity | discriminate].
Qed.

(** C10, as written, fails on a failure tagged ERR_NETWORK that carries a
    response: its status is 503, and the upload rejects with "Network error.
    Cannot connect to server.", not with the failure and its status. *)
Lemma uploadVideo_network_code_with_response :
  response network_error_503 = Some (mkResponse 503 JNull) /\
  uploadVideo None (rejecting network_error_503) [("video", "clip.mp4")] [] =
    (Throw (mkError "Network error. Cannot connect to server." None None),
     [upload_config None [("video", "clip.mp4")]]) /\
  mkError "Network error. Cannot connect to server." None None <>
    network_error_503.
Proof.
  split; [reflexivity|]. split; [reflexivity | discriminate].
Qed.

(** *** The operations at concrete failures *)

(** Each rule of the interceptor, and the pass-through, on the errors axios
    builds. *)
Remark interceptor_rules_run :
  let config := api_config None "get" "/health" NoPayload in
  api_request (rejecting network_error) config [] =
    (Throw (new_Error MSG_NETWORK), [config]) /\
  api_request (rejecting status_zero) config [] =
    (Throw (new_Error MSG_CORS), [config]) /\
  api_request (rejecting aborted) config [] =
    (Throw (new_Error MSG_TIMEOUT), [config]) /\
  api_request (rejecting bad_gateway) config [] =
    (Throw (new_Error MSG_SERVER), [config]) /\
  api_request (rejecting bad_request) config [] =
    (Throw bad_request, [config]).
Proof. repeat split; reflexivity. Qed.

(** The upload of the specification's example: status 413. *)
Remark uploadVideo_too_large :
  uploadVideo None (rejecting too_large) [("video", "clip.mp4")] [] =
    (Throw (new_Error MSG_UPLOAD_TOO_LARGE),
     [upload_config None [("video", "clip.mp4")]]).
Proof. reflexivity. Qed.

(** The timeout axios itself reports (ECONNABORTED, "timeout of 30000ms
    exceeded") reaches the [catch] of [transcribeVideo] as the interceptor's
    "Request timed out..." error, which does not contain "timeout". *)
Remark transcribeVideo_after_axios_timeout :
  transcribeVideo None (rejecting aborted) no_numbers (JStr "abc") [] =
    (Throw (new_Error MSG_TRANSCRIBE_FAILED),
     [api_config None "post" "/transcribe-direct-video"
        (JsonPayload (JObj {[ "videoId" := JStr "abc" ]}))]).
Proof. reflexivity. Qed.

(** The specification's example: a backend error body [{error: "bad video"}]
    is surfaced as "bad video". *)
Remark transcribeVideo_bad_video :
  transcribeVideo None (rejecting bad_request) no_numbers (JStr "abc") [] =
    (Throw (new_Error "bad video"),
     [api_config None "post" "/transcribe-direct-video"
        (JsonPayload (JObj {[ "videoId" := JStr "abc" ]}))]).
Proof. reflexivity. Qed.

(** A successful transcription returns the parsed body. *)
Remark transcribeVideo_success :
  transcribeVideo None
    (answering (mkResponse 200 (JObj {[ "text" := JStr "hello" ]})))
    no_numbers (JStr "abc") [] =
    (Ok (JObj {[ "text" := JStr "hello" ]}),
     [api_config None "post" "/transcribe-direct-video"
        (JsonPayload (JObj {[ "videoId" := JStr "abc" ]}))]).
Proof. reflexivity. Qed.

End ClientFacts.

(** ** The forwarding handler *)

Module ProxyFacts.
Import Js Eff Proxy ProxySpec.

Lemma bodyless_dec (m : string) :
  negb (String.eqb m "GET") && negb (String.eqb m "HEAD") = false <-> bodyless m.
Proof.
  unfold bodyless.
  rewrite andb_false_iff, !negb_false_iff, !String.eqb_eq. tauto.
Qed.

(** The target address, written out. *)
Lemma target_literal (req : Request) :
  target req =
  "http://footage-flow-env.eba-92jebm7b.ap-south-1.elasticbeanstalk.com/" +:+
  match query_proxy req with
  | QMulti l => String.concat "/" l
  | QSingle s => s
  | QMissing => "undefined"
  end.
Proof.
  unfold target, template.
  destruct (query_proxy req) as [|s|l];
    [reflexivity | reflexivity | rewrite JsFacts.join_concat; reflexivity].
Qed.

Lemma not_bodyless_dec (m : string) :
  negb (String.eqb m "GET") && negb (String.eqb m "HEAD") = true <-> ~ bodyless m.
Proof.
  rewrite <- bodyless_dec.
  destruct (negb (String.eqb m "GET") && negb (String.eqb m "HEAD"));
    split; congruence.
Qed.

Section Handler.
Variable fetch : string -> FetchOptions -> Result Exn FetchResponse.
Variable JSON_stringify : JsVal -> Result Exn JsVal.

(** The handler, one outcome at a time. *)
Lemma handler_run (req : Request) (w : World) :
  handler fetch JSON_stringify req w =
  if negb (String.eqb (req_method req) "GET")
     && negb (String.eqb (req_method req) "HEAD")
  then
    match JSON_stringify (req_body req) with
    | Ok b => relay fetch (target req) (mkOptions (req_method req) json_headers (Some b)) w
    | Throw e => (Ok tt, mkWorld (calls w) (Some (500, envelope e)))
    end
  else relay fetch (target req) (mkOptions (req_method req) json_headers None) w.
Proof.
  unfold handler, relay, target, try_catch, mbind, eff_bind, bind, stringify,
    do_fetch, response_json, res_status_json, modify, mret, eff_ret, ret.
  destruct (negb _ && negb _); simpl.
  - destruct (JSON_stringify _) as [b|e]; simpl; [|reflexivity].
    destruct (fetch _ _) as [r|e]; simpl; [|reflexivity].
    destruct (json r); reflexivity.
  - destruct (fetch _ _) as [r|e]; simpl; [|reflexivity].
    destruct (json r); reflexivity.
Qed.

Lemma relay_ok (u : string) (o : FetchOptions) (w : World) :
  exists w',
    relay fetch u o w = (Ok tt, w') /\
    calls w' = calls w ++ [(u, o)] /\
    (forall e, fetch u o = Throw e -> reply w' = Some (500, envelope e)) /\
    (forall r e, fetch u o = Ok r -> json r = Throw e ->
                 reply w' = Some (500, envelope e)) /\
    (forall r d, fetch u o = Ok r -> json r = Ok d ->
                 reply w' = Some (status r, d)).
Proof.
  unfold relay. destruct (fetch u o) as [r|e].
  - destruct (json r) as [d|e] eqn:Hj; eexists; (split; [reflexivity|]);
      (split; [reflexivity|]); repeat split; try discriminate.
    + intros r' e [= <-]. congruence.
    + intros r' d' [= <-] Hd. simpl. congruence.
    + intros r' e' [= <-] He. simpl. congruence.
    + intros r' d' [= <-]. congruence.
  - eexists; split; [reflexivity|]; split; [reflexivity|]; repeat split;
      try discriminate.
    intros e' [= <-]. reflexivity.
Qed.

Lemma calls_snoc_inv (l : list (string * FetchOptions))
    (a b : string * FetchOptions) :
  l ++ [a] = l ++ [b] -> a = b.
Proof. intros H. apply app_inv_head in H. congruence. Qed.

Lemma calls_snoc_ne (l : list (string * FetchOptions))
    (a : string * FetchOptions) :
  l <> l ++ [a].
Proof.
  intros H. apply (f_equal (@length _)) in H.
  rewrite length_app in H. simpl in H. lia.
Qed.

(** C4. The handler never lets an exception escape: it always completes,
    and when serialising the inbound body, the outbound call, or parsing the
    outbound response as JSON throws [e], the reply is status 500 with the
    body [{error: 'Backend connection failed', details: e.message}]. *)
Theorem handler_catches_every_exception (req : Request) (w : World) :
  exists w',
    handler fetch JSON_stringify req w = (Ok tt, w') /\
    (forall e, ~ bodyless (req_method req) ->
               JSON_stringify (req_body req) = Throw e ->
               w' = mkWorld (calls w) (Some (500, envelope e))) /\
    (forall u o e, calls w' = calls w ++ [(u, o)] ->
                   fetch u o = Throw e ->
                   reply w' = Some (500, envelope e)) /\
    (forall u o r e, calls w' = calls w ++ [(u, o)] ->
                     fetch u o = Ok r -> json r = Throw e ->
                     reply w' = Some (500, envelope e)).
Proof.
  rewrite handler_run.
  destruct (negb _ && negb _) eqn:Hm.
  - destruct (JSON_stringify (req_body req)) as [b|e0] eqn:Hs.
    + destruct (relay_ok (target req)
                  (mkOptions (req_method req) json_headers (Some b)) w)
        as (w' & -> & Hc & Hf & Hj & _).
      exists w'. split; [reflexivity|]. split; [discriminate|].
      rewrite Hc. split.
      * intros u o e Heq. apply calls_snoc_inv in Heq. injection Heq as <- <-. apply Hf.
      * intros u o r e Heq. apply calls_snoc_inv in Heq. injection Heq as <- <-. apply Hj.
    + eexists. split; [reflexivity|]. split.
      * intros e _ [= <-]. reflexivity.
      * simpl. split.
        -- intros u o e Heq. now apply calls_snoc_ne in Heq.
        -- intros u o r e Heq. now apply calls_snoc_ne in Heq.
  - destruct (relay_ok (target req)
                (mkOptions (req_method req) json_headers None) w)
      as (w' & -> & Hc & Hf & Hj & _).
    exists w'. split; [reflexivity|]. split.
    + intros e Hnb. apply not_bodyless_dec in Hnb. congruence.
    + rewrite Hc. split.
      * intros u o e Heq. apply calls_snoc_inv in Heq. injection Heq as <- <-. apply Hf.
      * intros u o r e Heq. apply calls_snoc_inv in Heq. injection Heq as <- <-. apply Hj.
Qed.

(** C5. For an inbound GET whose path is the ordered segments [segs], the
    handler issues exactly one outbound call: a GET to the origin followed
    by the segments joined with "/", without a body; when that call and the
    parsing of its JSON body succeed, the backend's status and body are the
    reply. *)
Theorem handler_get_segments
    (req : Request) (segs : list string) (w : World) :
  query_proxy req = QMulti segs ->
  req_method req = "GET" ->
  let u :=
    "http://footage-flow-env.eba-92jebm7b.ap-south-1.elasticbeanstalk.com/"
    +:+ String.concat "/" segs in
  let o := mkOptions "GET" {[ "Content-Type" := "application/json" ]} None in
  exists w',
    handler fetch JSON_stringify req w = (Ok tt, w') /\
    calls w' = calls w ++ [(u, o)] /\
    (forall r d, fetch u o = Ok r -> json r = Ok d ->
                 reply w' = Some (status r, d)).
Proof.
  intros Hq Hm. cbv zeta. rewrite handler_run, Hm.
  replace (negb (String.eqb "GET" "GET") && negb (String.eqb "GET" "HEAD"))
    with false by reflexivity.
  rewrite target_literal, Hq.
  destruct (relay_ok
              ("http://footage-flow-env.eba-92jebm7b.ap-south-1.elasticbeanstalk.com/"
               +:+ String.concat "/" segs)
              (mkOptions "GET" json_headers None) w)
    as (w' & -> & Hc & _ & _ & Hd).
  exists w'. auto.
Qed.

(** C6. When the wildcard path parameter is missing, every call the handler
    issues goes to the origin followed by "/undefined", and it issues one
    unless serialising the body throws; the origin followed by "/" alone
    is the target of an empty sequence of segments. *)
Theorem handler_missing_path (req : Request) (w : World) :
  (bodyless (req_method req) \/
   exists b, JSON_stringify (req_body req) = Ok b) ->
  (query_proxy req = QMissing ->
   exists o, calls (handler fetch JSON_stringify req w).2 =
             calls w ++ [(ORIGIN +:+ "/undefined", o)]) /\
  (query_proxy req = QMulti [] ->
   exists o, calls (handler fetch JSON_stringify req w).2 =
             calls w ++ [(ORIGIN +:+ "/", o)]).
Proof.
  intros Hbody.
  assert (Hcalls : exists o, calls (handler fetch JSON_stringify req w).2 =
                             calls w ++ [(target req, o)]).
  { rewrite handler_run.
    destruct (negb _ && negb _) eqn:Hm.
    - destruct Hbody as [Hb|[b Hb]].
      + apply bodyless_dec in Hb. congruence.
      + rewrite Hb. eexists.
        destruct (relay_ok (target req)
                    (mkOptions (req_method req) json_headers (Some b)) w)
          as (w' & -> & Hc & _). exact Hc.
    - eexists.
      destruct (relay_ok (target req)
                  (mkOptions (req_method req) json_headers None) w)
        as (w' & -> & Hc & _). exact Hc. }
  destruct Hcalls as [o Hcalls].
  split; intros Hq; exists o; rewrite Hcalls; unfold target; now rewrite Hq.
Qed.

(** C8. The outbound call carries the inbound method; for GET and HEAD it
    has no body, for every other method its body is [JSON.stringify] of the
    inbound body (and no call is issued when that throws); its only header
    is [Content-Type: application/json]; the inbound headers change
    nothing. *)
Theorem handler_outbound_options (req : Request) (w : World) :
  let m := req_method req in
  (bodyless m ->
   calls (handler fetch JSON_stringify req w).2 =
   calls w ++ [(target req, mkOptions m json_headers None)]) /\
  (~ bodyless m -> forall b,
   JSON_stringify (req_body req) = Ok b ->
   calls (handler fetch JSON_stringify req w).2 =
   calls w ++ [(target req, mkOptions m json_headers (Some b))]) /\
  (~ bodyless m -> forall e,
   JSON_stringify (req_body req) = Throw e ->
   calls (handler fetch JSON_stringify req w).2 = calls w) /\
  (forall inbound : gmap string string,
   handler fetch JSON_stringify
     (mkRequest (query_proxy req) m (req_body req) inbound) w =
   handler fetch JSON_stringify req w).
Proof.
  intros m. subst m. split; [|split; [|split]].
  - intros Hb. rewrite handler_run.
    apply bodyless_dec in Hb. rewrite Hb.
    destruct (relay_ok (target req)
                (mkOptions (req_method req) json_headers None) w)
      as (w' & -> & Hc & _). exact Hc.
  - intros Hnb b Hs. rewrite handler_run.
    apply not_bodyless_dec in Hnb. rewrite Hnb, Hs.
    destruct (relay_ok (target req)
                (mkOptions (req_method req) json_headers (Some b)) w)
      as (w' & -> & Hc & _). exact Hc.
  - intros Hnb e Hs. rewrite handler_run.
    apply not_bodyless_dec in Hnb. rewrite Hnb, Hs. reflexivity.
  - intros inbound. rewrite !handler_run. reflexivity.
Qed.

End Handler.

(** *** The theorems at concrete requests *)

Import Examples.

Lemma handler_catches_every_exception_witness :
  exists w',
    handler backend_down stringify_fixed post_a start = (Ok tt, w') /\
    reply w' = Some (500, envelope (mkExn "fetch failed")).
Proof.
  destruct (handler_catches_every_exception backend_down stringify_fixed
              post_a start) as (w' & Hrun & _ & Hfetch & _).
  exists w'. split; [exact Hrun|].
  apply (Hfetch (target post_a)
           (mkOptions "POST" json_headers (Some (JStr "{}")))).
  - revert Hrun. vm_compute. intros [= <-]. reflexivity.
  - reflexivity.
Defined.

Lemma handler_get_segments_witness :
  exists w',
    handler backend_ok stringify_fixed get_a_b start = (Ok tt, w') /\
    calls w' =
      [("http://footage-flow-env.eba-92jebm7b.ap-south-1.elasticbeanstalk.com/a/b",
        mkOptions "GET" {[ "Content-Type" := "application/json" ]} None)] /\
    reply w' = Some (200, JNull).
Proof.
  destruct (handler_get_segments backend_ok stringify_fixed get_a_b ["a"; "b"]
              start eq_refl eq_refl) as (w' & Hrun & Hcalls & Hrelay).
  exists w'. split; [exact Hrun|]. split; [exact Hcalls|].
  apply (Hrelay (mkFetchResponse 200 (Ok JNull)) JNull); reflexivity.
Defined.

Lemma handler_missing_path_witness :
  exists o,
    calls (handler backend_ok stringify_fixed get_root start).2 =
    calls start ++ [(ORIGIN +:+ "/undefined", o)].
Proof.
  apply (handler_missing_path backend_ok stringify_fixed get_root start).
  - left; left; reflexivity.
  - reflexivity.
Defined.

Lemma handler_outbound_options_witness :
  calls (handler backend_ok stringify_fixed post_a start).2 =
  calls start ++ [(target post_a,
                   mkOptions "POST" json_headers (Some (JStr "{}")))].
Proof.
  apply (handler_outbound_options backend_ok stringify_fixed post_a start).
  - unfold bodyless; simpl; intros [H|H]; discriminate.
  - reflexivity.
Defined.

(** *** Where the specification says more than the code does *)

(** C6, as written, fails: without a [proxy] parameter the one call issued
    goes to the origin followed by "/undefined", which is not the origin
    followed by a bare "/". *)
Lemma handler_missing_path_is_undefined :
  query_proxy get_root = QMissing /\
  calls (handler backend_ok stringify_fixed get_root start).2 =
    [("http://footage-flow-env.eba-92jebm7b.ap-south-1.elasticbeanstalk.com/undefined",
      mkOptions "GET" json_headers None)] /\
  "http://footage-flow-env.eba-92jebm7b.ap-south-1.elasticbeanstalk.com/undefined"
    <> ORIGIN +:+ "/".
Proof.
  split; [reflexivity|]. split; [reflexivity|]. vm_compute. discriminate.
Qed.

(** The address of the specification's example. *)
Lemma target_a_b :
  target get_a_b =
  "http://footage-flow-env.eba-92jebm7b.ap-south-1.elasticbeanstalk.com/a/b".
Proof. reflexivity. Qed.

End ProxyFacts.

(** ** The client facade, operation by operation *)

Module ClientMore.
Import Js Eff Client Spec Endpoints ClientFacts.

Lemma plain_new_Error (m : string) : plain (new_Error m).
Proof. split; reflexivity. Qed.

(** A plain [Error] matches no rule of the interceptor. *)
Lemma plain_unclassified (e : JsError) :
  plain e ->
  ~ network_failure e /\ ~ cors_failure e /\ ~ timeout_failure e /\
  ~ server_failure e.
Proof.
  intros [Hc Hr].
  unfold network_failure, cors_failure, timeout_failure, server_failure,
    status_of.
  rewrite Hc, Hr. simpl. repeat split.
  - discriminate.
  - discriminate.
  - intros [H|H]; discriminate.
  - intros [s [H _]]; discriminate.
Qed.

(** What the interceptor throws is the failure itself or a plain [Error]. *)
Lemma Classified_shape (e t : JsError) :
  Classified e t ->
  (t = e /\ ~ network_failure e /\ ~ cors_failure e /\ ~ timeout_failure e /\
   ~ server_failure e) \/
  (plain t /\
   (t = new_Error MSG_NETWORK \/ t = new_Error MSG_CORS \/
    t = new_Error MSG_TIMEOUT \/ t = new_Error MSG_SERVER)).
Proof.
  intros [H|? H|? ? H|? ? ? H|? ? ? ?]; try (right; split;
    [apply plain_new_Error | auto]).
  left; auto.
Qed.

Section Facade.
Variable VITE_BACKEND_URL : option string.
Variable adapter : AxiosRequest -> Result JsError AxiosResponse.
Variable Number_toString : number -> string.

(** The shape shared by the operations that return [response.data] and
    rethrow: the outcome of the call through [api], body extracted. *)
Lemma data_or_rethrow_run (config : AxiosRequest) (log : list AxiosRequest) :
  try_catch (response ← api_request adapter config; mret (data response))
    (fun error => throw error) log =
  match api_request adapter config log with
  | (Ok r, log') => (Ok (data r), log')
  | (Throw e, log') => (Throw e, log')
  end.
Proof.
  unfold try_catch, mbind, eff_bind, bind, mret, eff_ret, ret, throw.
  now destruct (api_request adapter config log) as [[r|e] log'].
Qed.

Lemma generateStory_run (videoId prompt mode : JsVal) (log : list AxiosRequest) :
  generateStory VITE_BACKEND_URL adapter videoId prompt mode log =
  match api_request adapter
          (story_request VITE_BACKEND_URL videoId prompt (mode_sent mode)) log with
  | (Ok r, log') => (Ok (data r), log')
  | (Throw e, log') => (Throw e, log')
  end.
Proof.
  unfold generateStory, api_post. rewrite data_or_rethrow_run. reflexivity.
Qed.

Lemma duration_sent_eq (options : option (gmap string JsVal)) :
  or_else (get_prop (JObj (default ∅ options)) "transitionDuration")
    (JNum half) = duration_sent options.
Proof.
  unfold duration_sent, supplied_transitionDuration, or_else, get_prop.
  destruct options as [o|]; simpl.
  - destruct (o !! "transitionDuration"); reflexivity.
  - rewrite lookup_empty. reflexivity.
Qed.

Lemma renderVideo_run (videoId scenes : JsVal)
    (options : option (gmap string JsVal)) (log : list AxiosRequest) :
  renderVideo VITE_BACKEND_URL adapter videoId scenes options log =
  match api_request adapter
          (render_request VITE_BACKEND_URL videoId scenes (duration_sent options))
          log with
  | (Ok r, log') => (Ok (data r), log')
  | (Throw e, log') => (Throw e, log')
  end.
Proof.
  unfold renderVideo, api_post. rewrite data_or_rethrow_run.
  rewrite duration_sent_eq. reflexivity.
Qed.

Lemma searchVideo_run (videoId query : JsVal) (log : list AxiosRequest) :
  searchVideo VITE_BACKEND_URL adapter videoId query log =
  match api_request adapter (search_request VITE_BACKEND_URL videoId query) log with
  | (Ok r, log') => (Ok (data r), log')
  | (Throw e, log') => (Throw e, log')
  end.
Proof. unfold searchVideo, api_post. now rewrite data_or_rethrow_run. Qed.

Lemma testCORS_run (log : list AxiosRequest) :
  testCORS VITE_BACKEND_URL adapter log =
  match api_request adapter (cors_request VITE_BACKEND_URL) log with
  | (Ok r, log') => (Ok (data r), log')
  | (Throw e, log') => (Throw e, log')
  end.
Proof. unfold testCORS, api_get. now rewrite data_or_rethrow_run. Qed.

Lemma healthCheck_run (log : list AxiosRequest) :
  healthCheck VITE_BACKEND_URL adapter log =
  match api_request adapter (health_request VITE_BACKEND_URL) log with
  | (Ok r, log') => (Ok (data r), log')
  | (Throw e, log') => (Throw e, log')
  end.
Proof. unfold healthCheck, api_get. now rewrite data_or_rethrow_run. Qed.

Lemma api_request_answered
    (config : AxiosRequest) (r : AxiosResponse) (log : list AxiosRequest) :
  adapter config = Ok r ->
  api_request adapter config log = (Ok r, log ++ [config]).
Proof. intros H. now rewrite api_request_run, H. Qed.

Lemma api_request_thrown
    (config : AxiosRequest) (t : JsError) (log log' : list AxiosRequest) :
  api_request adapter config log = (Throw t, log') ->
  exists e, adapter config = Throw e /\ Classified e t /\ log' = log ++ [config].
Proof.
  rewrite api_request_run. destruct (adapter config) as [r|e]; [discriminate|].
  destruct (response_onRejected_classified e (log ++ [config]))
    as [thrown [-> Hcl]].
  intros [= <- <-]. now exists e.
Qed.

(** X1. When the transport answers with [r], every operation that goes
    through [api] fulfils with [r.data] alone, the status dropped, and
    [uploadVideo] fulfils with the whole response. *)
Theorem success_returns_body
    (r : AxiosResponse) (log : list AxiosRequest)
    (videoId prompt mode scenes query : JsVal)
    (options : option (gmap string JsVal)) (formData : FormData) :
  (adapter (transcribe_request VITE_BACKEND_URL videoId) = Ok r ->
   transcribeVideo VITE_BACKEND_URL adapter Number_toString videoId log =
     (Ok (data r), log ++ [transcribe_request VITE_BACKEND_URL videoId])) /\
  (adapter (story_request VITE_BACKEND_URL videoId prompt (mode_sent mode)) = Ok r ->
   generateStory VITE_BACKEND_URL adapter videoId prompt mode log =
     (Ok (data r),
      log ++ [story_request VITE_BACKEND_URL videoId prompt (mode_sent mode)])) /\
  (adapter (render_request VITE_BACKEND_URL videoId scenes
              (duration_sent options)) = Ok r ->
   renderVideo VITE_BACKEND_URL adapter videoId scenes options log =
     (Ok (data r),
      log ++ [render_request VITE_BACKEND_URL videoId scenes
                (duration_sent options)])) /\
  (adapter (search_request VITE_BACKEND_URL videoId query) = Ok r ->
   searchVideo VITE_BACKEND_URL adapter videoId query log =
     (Ok (data r), log ++ [search_request VITE_BACKEND_URL videoId query])) /\
  (adapter (cors_request VITE_BACKEND_URL) = Ok r ->
   testCORS VITE_BACKEND_URL adapter log =
     (Ok (data r), log ++ [cors_request VITE_BACKEND_URL])) /\
  (adapter (health_request VITE_BACKEND_URL) = Ok r ->
   healthCheck VITE_BACKEND_URL adapter log =
     (Ok (data r), log ++ [health_request VITE_BACKEND_URL])) /\
  (adapter (upload_config VITE_BACKEND_URL formData) = Ok r ->
   uploadVideo VITE_BACKEND_URL adapter formData log =
     (Ok r, log ++ [upload_config VITE_BACKEND_URL formData])).
Proof.
  repeat apply conj; intros H.
  - rewrite transcribeVideo_run. unfold api_post.
    fold (transcribe_request VITE_BACKEND_URL videoId).
    now rewrite (api_request_answered _ _ _ H).
  - rewrite generateStory_run. now rewrite (api_request_answered _ _ _ H).
  - rewrite renderVideo_run. now rewrite (api_request_answered _ _ _ H).
  - rewrite searchVideo_run. now rewrite (api_request_answered _ _ _ H).
  - rewrite testCORS_run. now rewrite (api_request_answered _ _ _ H).
  - rewrite healthCheck_run. now rewrite (api_request_answered _ _ _ H).
  - rewrite uploadVideo_run. cbv zeta. now rewrite H.
Qed.

(** X2. [generateStory], [renderVideo], [searchVideo], [testCORS] and
    [healthCheck] add no remapping of their own: a failed call rejects with
    exactly what the response interceptor makes of the failure. *)
Theorem rethrowing_operations_failure
    (e : JsError) (log : list AxiosRequest)
    (videoId prompt mode scenes query : JsVal)
    (options : option (gmap string JsVal)) :
  (adapter (story_request VITE_BACKEND_URL videoId prompt (mode_sent mode))
     = Throw e ->
   exists thrown,
     generateStory VITE_BACKEND_URL adapter videoId prompt mode log =
       (Throw thrown,
        log ++ [story_request VITE_BACKEND_URL videoId prompt (mode_sent mode)]) /\
     Classified e thrown) /\
  (adapter (render_request VITE_BACKEND_URL videoId scenes
              (duration_sent options)) = Throw e ->
   exists thrown,
     renderVideo VITE_BACKEND_URL adapter videoId scenes options log =
       (Throw thrown,
        log ++ [render_request VITE_BACKEND_URL videoId scenes
                  (duration_sent options)]) /\
     Classified e thrown) /\
  (adapter (search_request VITE_BACKEND_URL videoId query) = Throw e ->
   exists thrown,
     searchVideo VITE_BACKEND_URL adapter videoId query log =
       (Throw thrown, log ++ [search_request VITE_BACKEND_URL videoId query]) /\
     Classified e thrown) /\
  (adapter (cors_request VITE_BACKEND_URL) = Throw e ->
   exists thrown,
     testCORS VITE_BACKEND_URL adapter log =
       (Throw thrown, log ++ [cors_request VITE_BACKEND_URL]) /\
     Classified e thrown) /\
  (adapter (health_request VITE_BACKEND_URL) = Throw e ->
   exists thrown,
     healthCheck VITE_BACKEND_URL adapter log =
       (Throw thrown, log ++ [health_request VITE_BACKEND_URL]) /\
     Classified e thrown).
Proof.
  repeat apply conj; intros H;
    destruct (api_request_rejected adapter _ e log H) as [thrown [Hrun Hcl]];
    exists thrown; (split; [|exact Hcl]).
  - now rewrite generateStory_run, Hrun.
  - now rewrite renderVideo_run, Hrun.
  - now rewrite searchVideo_run, Hrun.
  - now rewrite testCORS_run, Hrun.
  - now rewrite healthCheck_run, Hrun.
Qed.

Lemma data_or_rethrow_log (config : AxiosRequest) (log : list AxiosRequest) :
  (match api_request adapter config log with
   | (Ok r, log') => (Ok (data r), log')
   | (Throw e, log') => (@Throw JsError JsVal e, log')
   end).2 = log ++ [config].
Proof.
  rewrite <- (api_request_log adapter config log).
  now destruct (api_request adapter config log) as [[r|e] log'].
Qed.

Lemma uploadVideo_log (formData : FormData) (log : list AxiosRequest) :
  (uploadVideo VITE_BACKEND_URL adapter formData log).2 =
  log ++ [upload_config VITE_BACKEND_URL formData].
Proof.
  rewrite uploadVideo_run. cbv zeta.
  now destruct (adapter (upload_config VITE_BACKEND_URL formData)).
Qed.

Lemma transcribeVideo_log (videoId : JsVal) (log : list AxiosRequest) :
  (transcribeVideo VITE_BACKEND_URL adapter Number_toString videoId log).2 =
  log ++ [transcribe_request VITE_BACKEND_URL videoId].
Proof.
  rewrite transcribeVideo_run. unfold api_post.
  fold (transcribe_request VITE_BACKEND_URL videoId).
  rewrite <- (api_request_log adapter
                (transcribe_request VITE_BACKEND_URL videoId) log).
  now destruct (api_request adapter _ log) as [[r|e] log'].
Qed.

(** X3. With string identifiers, whatever the transport does, a call of an
    operation dispatches exactly one request, nothing is retried and nothing
    is sent twice: the upload as a POST of the form to the backend address
    followed by "/upload" with a timeout of 120000 ms, every other operation
    to its endpoint under the backend address with the JSON headers and a
    timeout of 30000 ms, and none with credentials. *)
Theorem one_request_per_call
    (log : list AxiosRequest) (id q : string)
    (prompt mode scenes : JsVal)
    (options : option (gmap string JsVal)) (formData : FormData) :
  let backend := BACKEND_URL VITE_BACKEND_URL in
  let json : gmap string string :=
    {[ "Content-Type" := "application/json"; "Accept" := "application/json" ]} in
  (uploadVideo VITE_BACKEND_URL adapter formData log).2 =
    log ++ [mkRequest "post" None (backend +:+ "/upload") (FormPayload formData)
              {[ "Accept" := "application/json, text/plain, */*";
                 "Content-Type" := "multipart/form-data" ]}
              120000 false] /\
  (transcribeVideo VITE_BACKEND_URL adapter Number_toString (JStr id) log).2 =
    log ++ [mkRequest "post" (Some backend) "/transcribe-direct-video"
              (JsonPayload (JObj {[ "videoId" := JStr id ]}))
              json 30000 false] /\
  (generateStory VITE_BACKEND_URL adapter (JStr id) prompt mode log).2 =
    log ++ [mkRequest "post" (Some backend) "/generate-story"
              (JsonPayload (JObj {[ "videoId" := JStr id; "prompt" := prompt;
                                    "mode" := mode_sent mode ]}))
              json 30000 false] /\
  (renderVideo VITE_BACKEND_URL adapter (JStr id) scenes options log).2 =
    log ++ [mkRequest "post" (Some backend) "/render-story"
              (JsonPayload (JObj {[ "videoId" := JStr id; "scenes" := scenes;
                                    "transitionDuration" :=
                                      duration_sent options ]}))
              json 30000 false] /\
  (searchVideo VITE_BACKEND_URL adapter (JStr id) (JStr q) log).2 =
    log ++ [mkRequest "post" (Some backend) "/search"
              (JsonPayload (JObj {[ "videoId" := JStr id; "query" := JStr q ]}))
              json 30000 false] /\
  (testCORS VITE_BACKEND_URL adapter log).2 =
    log ++ [mkRequest "get" (Some backend) "/cors-test" NoPayload
              json 30000 false] /\
  (healthCheck VITE_BACKEND_URL adapter log).2 =
    log ++ [mkRequest "get" (Some backend) "/health" NoPayload
              json 30000 false].
Proof.
  cbv zeta. repeat apply conj.
  - rewrite uploadVideo_log. reflexivity.
  - rewrite transcribeVideo_log. reflexivity.
  - rewrite generateStory_run, data_or_rethrow_log. reflexivity.
  - rewrite renderVideo_run, data_or_rethrow_log. reflexivity.
  - rewrite searchVideo_run, data_or_rethrow_log. reflexivity.
  - rewrite testCORS_run, data_or_rethrow_log. reflexivity.
  - rewrite healthCheck_run, data_or_rethrow_log. reflexivity.
Qed.


(** The backend address is the build's [VITE_BACKEND_URL] when that is a
    non-empty string and the hard-coded address otherwise; it is never
    empty. *)
Remark BACKEND_URL_fallback :
  (VITE_BACKEND_URL = None \/ VITE_BACKEND_URL = Some "" ->
   BACKEND_URL VITE_BACKEND_URL = "https://backend-footage-flow.onrender.com") /\
  (forall s, VITE_BACKEND_URL = Some s -> s <> "" ->
             BACKEND_URL VITE_BACKEND_URL = s) /\
  BACKEND_URL VITE_BACKEND_URL <> "".
Proof.
  unfold BACKEND_URL. split; [|split].
  - intros [->| ->]; reflexivity.
  - intros s -> Hs. destruct s; [contradiction | reflexivity].
  - destruct VITE_BACKEND_URL as [[|c s]|]; discriminate.
Qed.

(** X6. A failed [transcribeVideo] always rejects with a plain [Error]: the
    caller never gets the [code] or the [response] of the failure. *)
Theorem transcribeVideo_throws_plain
    (videoId : JsVal) (t : JsError) (log log' : list AxiosRequest) :
  transcribeVideo VITE_BACKEND_URL adapter Number_toString videoId log =
    (Throw t, log') ->
  plain t.
Proof.
  rewrite transcribeVideo_run.
  destruct (api_post _ _ _ _ log) as [[r|e] l]; [discriminate|].
  intros [= <- _].
  destruct (includes _ _); [apply plain_new_Error|].
  destruct (truthy _); [|apply plain_new_Error].
  destruct (to_string _ _); apply plain_new_Error.
Qed.

(** X7. An error that comes out of a call through [api] with a [response]
    is the transport's own failure, and its status is neither 0, nor 408,
    nor 500 or more: those never reach the operations. *)
Theorem api_failure_visible_statuses
    (config : AxiosRequest) (t : JsError) (r : AxiosResponse)
    (log log' : list AxiosRequest) :
  api_request adapter config log = (Throw t, log') ->
  response t = Some r ->
  adapter config = Throw t /\
  status r <> 0 /\ status r <> 408 /\ status r < 500.
Proof.
  intros Hrun Hr.
  destruct (api_request_thrown config t log log' Hrun) as (e & He & Hcl & _).
  assert (Hso : status_of t = Some (status r))
    by (unfold status_of; now rewrite Hr).
  destruct (Classified_shape e t Hcl) as [(-> & _ & Hc & Ht & Hs)|[[_ Hp] _]].
  - split; [exact He|]. repeat split.
    + intros H0. apply Hc. unfold cors_failure. now rewrite Hso, H0.
    + intros H408. apply Ht. left. now rewrite Hso, H408.
    + destruct (Z_lt_ge_dec (status r) 500) as [Hlt|Hge]; [exact Hlt|].
      exfalso. apply Hs. exists (status r). split; [exact Hso | lia].
  - congruence.
Qed.


(** X9. When the error field of the response body is an object of a parsed
    JSON body, its contents never reach the caller of [transcribeVideo]:
    without a [toString] key of its own the message is the text "[object
    Object]", and with one the call rejects with the TypeError of the failed
    conversion. *)
Theorem transcribeVideo_object_error
    (videoId : JsVal) (e : JsError) (o : gmap string JsVal)
    (log log' : list AxiosRequest) :
  api_post VITE_BACKEND_URL adapter "/transcribe-direct-video"
    (JObj {[ "videoId" := videoId ]}) log = (Throw e, log') ->
  ~ occurs_in "timeout" (message e) ->
  response_data_error e = JObj o ->
  (o !! "toString" = None ->
   transcribeVideo VITE_BACKEND_URL adapter Number_toString videoId log =
     (Throw (mkError "[object Object]" None None), log')) /\
  (is_Some (o !! "toString") ->
   transcribeVideo VITE_BACKEND_URL adapter Number_toString videoId log =
     (Throw (mkError "Cannot convert object to primitive value" None None),
      log')).
Proof.
  intros Hpost Hno Ho. rewrite transcribeVideo_run, Hpost.
  destruct (includes (message e) "timeout") eqn:Hinc.
  { exfalso. apply Hno. now apply JsFacts.includes_spec. }
  rewrite Ho. simpl. split.
  - now intros ->.
  - now intros [x ->].
Qed.

(** X10. The rejection handler of the interceptor is idempotent: what it
    throws, it would throw again unchanged. *)
Theorem interceptor_idempotent
    (e t : JsError) (log log' : list AxiosRequest) :
  response_onRejected e log = (Throw t, log') ->
  response_onRejected t log' = (Throw t, log').
Proof.
  intros Hrun.
  destruct (response_onRejected_classified e log) as [t0 [Hrun0 Hcl]].
  rewrite Hrun0 in Hrun. injection Hrun as -> ->.
  destruct (response_onRejected_classified t log') as [t' [-> Hcl']].
  f_equal. f_equal.
  apply (Classified_functional t); [exact Hcl'|].
  destruct (Classified_shape e t Hcl) as [(-> & Hn & Hc & Ht & Hs)|[Hp _]].
  - now apply Rule_none.
  - destruct (plain_unclassified t Hp) as (Hn & Hc & Ht & Hs).
    now apply Rule_none.
Qed.

End Facade.

(** *** The theorems at concrete transports *)

Import Examples.

Lemma success_returns_body_witness :
  transcribeVideo None
    (answering (mkResponse 201 (JObj {[ "text" := JStr "hello" ]})))
    no_numbers (JStr "abc") [] =
    (Ok (JObj {[ "text" := JStr "hello" ]}),
     [] ++ [transcribe_request None (JStr "abc")]).
Proof.
  apply (success_returns_body None
           (answering (mkResponse 201 (JObj {[ "text" := JStr "hello" ]})))
           no_numbers (mkResponse 201 (JObj {[ "text" := JStr "hello" ]})) []
           (JStr "abc") JNull JNull JNull JNull None []).
  reflexivity.
Defined.

Lemma rethrowing_operations_failure_witness :
  exists thrown,
    healthCheck None (rejecting bad_gateway) [] =
      (Throw thrown, [] ++ [health_request None]) /\
    Classified bad_gateway thrown.
Proof.
  apply (rethrowing_operations_failure None (rejecting bad_gateway)
           bad_gateway [] JNull JNull JNull JNull JNull None).
  reflexivity.
Defined.


Lemma transcribeVideo_throws_plain_witness :
  plain (new_Error "bad video").
Proof.
  apply (transcribeVideo_throws_plain None (rejecting bad_request) no_numbers
           (JStr "abc") (new_Error "bad video") []
           [transcribe_request None (JStr "abc")]).
  reflexivity.
Defined.

Lemma api_failure_visible_statuses_witness :
  rejecting bad_request (health_request None) = Throw bad_request /\
  400 <> 0 /\ 400 <> 408 /\ 400 < 500.
Proof.
  apply (api_failure_visible_statuses (rejecting bad_request)
           (health_request None) bad_request
           (mkResponse 400 (body_error "bad video")) []
           [health_request None]); reflexivity.
Defined.


Lemma transcribeVideo_object_error_witness :
  transcribeVideo None (rejecting object_error_field) no_numbers (JStr "abc") [] =
    (Throw (mkError "[object Object]" None None),
     [transcribe_request None (JStr "abc")]) /\
  transcribeVideo None (rejecting unprintable_error_field) no_numbers
    (JStr "abc") [] =
    (Throw (mkError "Cannot convert object to primitive value" None None),
     [transcribe_request None (JStr "abc")]).
Proof.
  split.
  - apply (transcribeVideo_object_error None (rejecting object_error_field)
             no_numbers (JStr "abc") object_error_field
             {[ "reason" := JStr "codec" ]} []).
    + reflexivity.
    + intros H. apply JsFacts.includes_spec in H. vm_compute in H.
      discriminate.
    + reflexivity.
    + reflexivity.
  - apply (transcribeVideo_object_error None (rejecting unprintable_error_field)
             no_numbers (JStr "abc") unprintable_error_field
             {[ "toString" := JNum (number_of_Z 1) ]} []).
    + reflexivity.
    + intros H. apply JsFacts.includes_spec in H. vm_compute in H.
      discriminate.
    + reflexivity.
    + eexists. reflexivity.
Defined.

Lemma interceptor_idempotent_witness :
  response_onRejected (new_Error MSG_SERVER) [] =
    (Throw (new_Error MSG_SERVER), []).
Proof.
  apply (interceptor_idempotent bad_gateway (new_Error MSG_SERVER) [] []).
  reflexivity.
Defined.

End ClientMore.

(** ** The forwarding handler, in every outcome *)

Module ProxyMore.
Import Js Eff Proxy ProxySpec Endpoints ProxyFacts.

Lemma append_assoc (a b c : string) : (a +:+ b) +:+ c = a +:+ b +:+ c.
Proof.
  induction a as [|x a IH]; [reflexivity|].
  change (String x ((a +:+ b) +:+ c) = String x (a +:+ b +:+ c)).
  now rewrite IH.
Qed.

Lemma target_prefix (req : Request) :
  String.prefix (ORIGIN +:+ "/") (target req) = true.
Proof.
  apply JsFacts.prefix_app. unfold target.
  eexists. rewrite append_assoc. reflexivity.
Qed.

Section Handler.
Variable fetch : string -> FetchOptions -> Result Exn FetchResponse.
Variable JSON_stringify : JsVal -> Result Exn JsVal.

(** The handler issues no call, or one call to the target of the request
    with the inbound method and the fixed headers. *)
Lemma handler_calls (req : Request) (w : World) :
  calls (handler fetch JSON_stringify req w).2 = calls w \/
  exists b,
    calls (handler fetch JSON_stringify req w).2 =
    calls w ++ [(target req, mkOptions (req_method req) json_headers b)].
Proof.
  rewrite handler_run.
  destruct (negb _ && negb _).
  - destruct (JSON_stringify (req_body req)) as [b|e]; [|now left].
    right. exists (Some b).
    destruct (relay_ok fetch (target req)
                (mkOptions (req_method req) json_headers (Some b)) w)
      as (w' & -> & Hc & _). exact Hc.
  - right. exists None.
    destruct (relay_ok fetch (target req)
                (mkOptions (req_method req) json_headers None) w)
      as (w' & -> & Hc & _). exact Hc.
Qed.

(** X11. The handler always replies, after at most one outbound call.  When
    the method is neither GET nor HEAD and serialising the body throws, no
    call is issued and the reply is the envelope with status 500; in every
    other case exactly one call goes to the target address, and the reply
    is the envelope with status 500 when the call or the parsing of its body
    throws, and the backend's status and body otherwise. *)
Theorem handler_always_replies (req : Request) (w : World) :
  let u :=
    "http://footage-flow-env.eba-92jebm7b.ap-south-1.elasticbeanstalk.com/" +:+
    match query_proxy req with
    | QMulti l => String.concat "/" l
    | QSingle s => s
    | QMissing => "undefined"
    end in
  let unserialisable :=
    ~ bodyless (req_method req) /\
    exists e, JSON_stringify (req_body req) = Throw e in
  exists w' code value,
    handler fetch JSON_stringify req w = (Ok tt, w') /\
    reply w' = Some (code, value) /\
    (unserialisable ->
     calls w' = calls w /\
     exists e, JSON_stringify (req_body req) = Throw e /\
               code = 500 /\ value = envelope e) /\
    (~ unserialisable ->
     exists o,
       calls w' = calls w ++ [(u, o)] /\
       ((exists e, fetch u o = Throw e /\ code = 500 /\ value = envelope e) \/
        (exists r e, fetch u o = Ok r /\ json r = Throw e /\
                     code = 500 /\ value = envelope e) \/
        (exists r d, fetch u o = Ok r /\ json r = Ok d /\
                     code = status r /\ value = d))).
Proof.
  cbv zeta. rewrite handler_run, target_literal.
  set (u := _ +:+ _).
  assert (Hrelay : forall o,
    exists w' code value,
      relay fetch u o w = (Ok tt, w') /\
      reply w' = Some (code, value) /\
      calls w' = calls w ++ [(u, o)] /\
      ((exists e, fetch u o = Throw e /\ code = 500 /\ value = envelope e) \/
       (exists r e, fetch u o = Ok r /\ json r = Throw e /\
                    code = 500 /\ value = envelope e) \/
       (exists r d, fetch u o = Ok r /\ json r = Ok d /\
                    code = status r /\ value = d))).
  { intros o. unfold relay. destruct (fetch u o) as [r|e] eqn:Hf.
    - destruct (json r) as [d|e] eqn:Hj.
      + do 3 eexists. repeat (split; [reflexivity|]).
        right; right. exists r, d. auto.
      + do 3 eexists. repeat (split; [reflexivity|]).
        right; left. exists r, e. auto.
    - do 3 eexists. repeat (split; [reflexivity|]).
      left. exists e. auto. }
  destruct (negb _ && negb _) eqn:Hm.
  - apply not_bodyless_dec in Hm.
    destruct (JSON_stringify (req_body req)) as [b|e] eqn:Hs.
    + destruct (Hrelay (mkOptions (req_method req) json_headers (Some b)))
        as (w' & code & value & -> & Hr & Hc & Hcases).
      exists w', code, value. split; [reflexivity|]. split; [exact Hr|]. split.
      * intros [_ [e He]]. discriminate.
      * intros _. eexists. split; [exact Hc | exact Hcases].
    + do 3 eexists. split; [reflexivity|]. split; [reflexivity|]. split.
      * intros _. split; [reflexivity|]. exists e. auto.
      * intros Hno. exfalso. apply Hno. split; [exact Hm | now exists e].
  - apply bodyless_dec in Hm.
    destruct (Hrelay (mkOptions (req_method req) json_headers None))
      as (w' & code & value & -> & Hr & Hc & Hcases).
    exists w', code, value. split; [reflexivity|]. split; [exact Hr|]. split.
    + intros [Hnb _]. contradiction.
    + intros _. eexists. split; [exact Hc | exact Hcases].
Qed.

(** X12. Whatever the method, when the outbound call is answered and its
    body parses as JSON, the reply is the backend's status and body as they
    are: a 404 or a 500 of the backend is relayed, not replaced by the
    envelope. *)
Theorem handler_relays_any_status
    (req : Request) (w : World) (o : FetchOptions) (r : FetchResponse)
    (d : JsVal) :
  calls (handler fetch JSON_stringify req w).2 = calls w ++ [(target req, o)] ->
  fetch (target req) o = Ok r ->
  json r = Ok d ->
  reply (handler fetch JSON_stringify req w).2 = Some (status r, d).
Proof.
  rewrite handler_run. intros Hc Hf Hj.
  destruct (negb _ && negb _).
  - destruct (JSON_stringify (req_body req)) as [b|e].
    + destruct (relay_ok fetch (target req)
                  (mkOptions (req_method req) json_headers (Some b)) w)
        as (w' & Hrun & Hc' & _ & _ & Hd).
      rewrite Hrun in *. simpl in Hc. rewrite Hc' in Hc.
      apply calls_snoc_inv in Hc. injection Hc as <-.
      now apply Hd.
    + simpl in Hc. now apply calls_snoc_ne in Hc.
  - destruct (relay_ok fetch (target req)
                (mkOptions (req_method req) json_headers None) w)
      as (w' & Hrun & Hc' & _ & _ & Hd).
    rewrite Hrun in *. simpl in Hc. rewrite Hc' in Hc.
    apply calls_snoc_inv in Hc. injection Hc as <-.
    now apply Hd.
Qed.

(** The segments of the path are joined as they are: the handler does the
    same for a sequence of segments and for the single string that joins
    them with "/", so a segment is neither escaped nor checked. *)
Remark handler_joined_path
    (segs : list string) (m : string) (b : JsVal)
    (inbound : gmap string string) (w : World) :
  handler fetch JSON_stringify (mkRequest (QMulti segs) m b inbound) w =
  handler fetch JSON_stringify (mkRequest (QSingle (join "/" segs)) m b inbound) w.
Proof. rewrite !handler_run. reflexivity. Qed.

(** X13. Every call the handler issues goes to an address that starts with
    the fixed origin and a slash: neither the path, nor the body, nor the
    inbound headers can send it to another host. *)
Theorem handler_calls_origin_only
    (req : Request) (w : World) (u : string) (o : FetchOptions) :
  In (u, o) (calls (handler fetch JSON_stringify req w).2) ->
  In (u, o) (calls w) \/ String.prefix (ORIGIN +:+ "/") u = true.
Proof.
  destruct (handler_calls req w) as [->|[b ->]]; [now left|].
  rewrite in_app_iff. intros [H|[H|[]]]; [now left|].
  right. injection H as <- _. apply target_prefix.
Qed.

End Handler.

Import Examples.

Lemma handler_always_replies_witness :
  exists w',
    handler backend_down stringify_fixed post_a start = (Ok tt, w') /\
    calls w' =
      [("http://footage-flow-env.eba-92jebm7b.ap-south-1.elasticbeanstalk.com/a",
        mkOptions "POST" json_headers (Some (JStr "{}")))] /\
    reply w' = Some (500, envelope (mkExn "fetch failed")).
Proof.
  destruct (handler_always_replies backend_down stringify_fixed post_a start)
    as (w' & code & value & Hrun & Hreply & _ & Hcall).
  exists w'. split; [exact Hrun|].
  destruct Hcall as (o & Hcalls & Hcases).
  { intros [_ [e He]]. discriminate He. }
  assert (Ho : o = mkOptions "POST" json_headers (Some (JStr "{}"))).
  { revert Hrun Hcalls. vm_compute. intros [= <-]. simpl. now intros [= <-]. }
  subst o. split; [exact Hcalls|].
  rewrite Hreply.
  destruct Hcases as [(e & He & -> & ->)|[(r & e & He & _)|(r & d & He & _)]].
  - injection He as <-. reflexivity.
  - discriminate He.
  - discriminate He.
Defined.

Lemma handler_relays_any_status_witness :
  reply (handler backend_not_found stringify_fixed post_a start).2 =
  Some (404, JObj {[ "error" := JStr "no such video" ]}).
Proof.
  apply (handler_relays_any_status backend_not_found stringify_fixed post_a
           start (mkOptions "POST" json_headers (Some (JStr "{}"))) not_found);
    reflexivity.
Defined.

Lemma handler_calls_origin_only_witness :
  In (target get_a_b, mkOptions "GET" json_headers None) (calls start) \/
  String.prefix (ORIGIN +:+ "/") (target get_a_b) = true.
Proof.
  apply (handler_calls_origin_only backend_ok stringify_fixed get_a_b start
           (target get_a_b) (mkOptions "GET" json_headers None)).
  left; reflexivity.
Defined.

End ProxyMore.
